(** * Student Service Manager ([final_project.py]): a shallow embedding

    The program is one Streamlit script: two regular-expression validators
    and a [main] that opens a MySQL connection, reads the widgets of the
    page and runs one of four workflows against the database.

    - Python strings are sequences of Unicode code points ([str]).
    - [re.match] is a backtracking matcher over a small pattern syntax; it
      returns a match object or [None], as Python does.
    - The script is a computation in a state-and-exception monad over a
      [world]: the rows the server has stored, the rows as the open
      connection sees them, how each request of the run will go, and the
      messages displayed so far.
    - What the repository does not contain (the Unicode tables of the Python
      runtime, the database schema) is a parameter of the model. *)

From Stdlib Require Import List NArith Arith Bool Lia Ascii String.
From Stdlib Require Import Permutation Sorted.
Import ListNotations.

(* ================================================================== *)
(** * Python strings *)

(** A character is a Unicode code point. *)
Definition char : Type := N.
Definition str : Type := list char.

(** The text of a literal of the source. *)
Definition py (s : string) : str := map N_of_ascii (list_ascii_of_string s).

Definition LF : char := 10%N.
Definition ch (a : ascii) : char := N_of_ascii a.

Arguments py s%_string.
Arguments ch a%_char.

Fixpoint str_eqb (a b : str) : bool :=
  match a, b with
  | [], [] => true
  | x :: a', y :: b' => N.eqb x y && str_eqb a' b'
  | _, _ => false
  end.

(** The tables of the Python runtime the script relies on: the character
    classes behind [\d], [\w] and [str.strip], and the case mappings behind
    [str.upper], [str.lower] and [str.title]. They belong to the
    interpreter, not to the repository, so the model takes them as a
    parameter. *)
Record unicode : Type := {
  isdecimal : char -> bool;   (* [\d] *)
  isword : char -> bool;      (* [\w] *)
  isspace : char -> bool;     (* what [strip()] removes *)
  upper : str -> str;
  lower : str -> str;
  title : str -> str
}.

Fixpoint lstrip (sp : char -> bool) (s : str) : str :=
  match s with
  | c :: s' => if sp c then lstrip sp s' else s
  | [] => []
  end.

(** [s.strip()] *)
Definition strip (U : unicode) (s : str) : str :=
  rev (lstrip (isspace U) (rev (lstrip (isspace U) s))).

(** ** The tables restricted to ASCII

    On a string of ASCII characters CPython computes exactly these. *)
Definition in_range (lo hi c : N) : bool := (N.leb lo c && N.leb c hi)%bool.

Definition ascii_isdecimal (c : char) : bool := in_range 48 57 c.
Definition ascii_isupper (c : char) : bool := in_range 65 90 c.
Definition ascii_islower (c : char) : bool := in_range 97 122 c.
Definition ascii_isword (c : char) : bool :=
  ascii_isdecimal c || ascii_isupper c || ascii_islower c || N.eqb c 95.
Definition ascii_isspace (c : char) : bool :=
  in_range 9 13 c || in_range 28 32 c.
Definition ascii_toupper (c : char) : char :=
  if ascii_islower c then (c - 32)%N else c.
Definition ascii_tolower (c : char) : char :=
  if ascii_isupper c then (c + 32)%N else c.

(** [str.title]: the first cased letter of every run of letters in upper
    case, the others in lower case. *)
Fixpoint ascii_title_from (in_word : bool) (s : str) : str :=
  match s with
  | [] => []
  | c :: s' =>
      let cased := ascii_isupper c || ascii_islower c in
      (if in_word then ascii_tolower c else ascii_toupper c)
        :: ascii_title_from cased s'
  end.

Definition ascii_tables : unicode := {|
  isdecimal := ascii_isdecimal;
  isword := ascii_isword;
  isspace := ascii_isspace;
  upper := map ascii_toupper;
  lower := map ascii_tolower;
  title := ascii_title_from false
|}.

(* ================================================================== *)
(** * Regular expressions: [re.match] *)

Module Re.

(** The pattern syntax the two validators use. *)
Inductive regex : Type :=
| Lit (c : char)                    (* one given character *)
| Class (p : char -> bool)          (* one character of a class *)
| Bol                               (* [^] *)
| Eol                               (* [$] *)
| Cat (r1 r2 : regex)               (* r1 r2 *)
| Plus (r : regex).                 (* r+ *)

(** [$] without [re.MULTILINE]: at the end of the string, or just before a
    newline that is the last character of the string. *)
Definition at_eol (rest : str) : bool :=
  match rest with
  | [] => true
  | [c] => N.eqb c LF
  | _ => false
  end.

(** Backtracking match of [r] at position [i], [rest] being the text from
    [i] on; [k] continues with the position and text after the part [r]
    consumed, and the result is the first success in the order Python tries
    the alternatives (a repetition takes as many rounds as it can before it
    gives one back). A round of a repetition that consumes nothing ends the
    repetition, so [length rest] rounds are all that can happen. *)
Fixpoint run (r : regex) (i : nat) (rest : str)
    (k : nat -> str -> option nat) {struct r} : option nat :=
  match r with
  | Lit c =>
      match rest with
      | x :: rest' => if N.eqb x c then k (S i) rest' else None
      | [] => None
      end
  | Class p =>
      match rest with
      | x :: rest' => if p x then k (S i) rest' else None
      | [] => None
      end
  | Bol => if Nat.eqb i 0 then k i rest else None
  | Eol => if at_eol rest then k i rest else None
  | Cat r1 r2 => run r1 i rest (fun j t => run r2 j t k)
  | Plus r1 =>
      (fix rounds (fuel : nat) (i : nat) (rest : str) {struct fuel} : option nat :=
         run r1 i rest (fun j t =>
           let more :=
             match fuel with
             | O => None
             | S fuel' => if Nat.ltb i j then rounds fuel' j t else None
             end in
           match more with
           | Some e => Some e
           | None => k j t
           end))
        (List.length rest) i rest
  end.

(** A match object: the span it covers. [re.match] only matches at the
    start of the string, so the span starts at 0. *)
Record Match : Type := { span_start : nat; span_end : nat }.

(** [re.match(pattern, s)]: a match object, or [None]. *)
Definition re_match (pattern : regex) (s : str) : option Match :=
  match run pattern 0 s (fun j _ => Some j) with
  | Some e => Some {| span_start := 0; span_end := e |}
  | None => None
  end.

(** The repetition of a character class, written as a function of its own:
    [run] at [Plus (Class p)] unfolds to it (lemma [run_plus_class]). *)
Fixpoint rounds_class (p : char -> bool) (k : nat -> str -> option nat)
    (fuel i : nat) (rest : str) {struct fuel} : option nat :=
  match rest with
  | x :: rest' =>
      if p x then
        match
          match fuel with
          | O => None
          | S fuel' => if Nat.ltb i (S i) then rounds_class p k fuel' (S i) rest' else None
          end
        with
        | Some e => Some e
        | None => k (S i) rest'
        end
      else None
  | [] => None
  end.

End Re.

(** Truth value of what [re.match] returns: a match object is true, [None]
    is false. *)
Definition truthy (m : option Re.Match) : bool :=
  match m with Some _ => true | None => false end.

(* ================================================================== *)
(** * Validation helpers *)

Section Validation.

Variable U : unicode.

(** [[\w\.-]] *)
Definition word_dot_hyphen (c : char) : bool :=
  isword U c || N.eqb c (ch ".") || N.eqb c (ch "-").

(** [r'^[\w\.-]+@[\w\.-]+\.\w+$'] *)
Definition email_pattern : Re.regex :=
  Re.Cat Re.Bol
    (Re.Cat (Re.Plus (Re.Class word_dot_hyphen))
      (Re.Cat (Re.Lit (ch "@"))
        (Re.Cat (Re.Plus (Re.Class word_dot_hyphen))
          (Re.Cat (Re.Lit (ch "."))
            (Re.Cat (Re.Plus (Re.Class (isword U)))
              Re.Eol))))).

(** [r'^S\d+$'] *)
Definition id_pattern : Re.regex :=
  Re.Cat Re.Bol
    (Re.Cat (Re.Lit (ch "S"))
      (Re.Cat (Re.Plus (Re.Class (isdecimal U)))
        Re.Eol)).

Definition validate_email (email : str) : option Re.Match :=
  Re.re_match email_pattern email.

Definition validate_id (sid : str) : option Re.Match :=
  Re.re_match id_pattern sid.

End Validation.

(* ================================================================== *)
(** * The database *)

(** A [datetime.date]; [str(d)] is its ISO text. *)
Record date : Type := { year : N; month : N; day : N }.

Definition date_leb (a b : date) : bool :=
  if N.ltb (year a) (year b) then true
  else if N.ltb (year b) (year a) then false
  else if N.ltb (month a) (month b) then true
  else if N.ltb (month b) (month a) then false
  else N.leb (day a) (day b).

Fixpoint decimal (width : nat) (n : N) : str :=
  match width with
  | O => []
  | S w => decimal w (n / 10) ++ [(48 + n mod 10)%N]
  end.

Definition date_str (d : date) : str :=
  decimal 4 (year d) ++ py "-" ++ decimal 2 (month d) ++ py "-" ++ decimal 2 (day d).

(** [Students(student_id, name, email)] *)
Record StudentRow : Type := { student_id : str; name : str; email : str }.

(** [Services(service_id, service_name)] *)
Record ServiceRow : Type := { service_id : str; service_name : str }.

(** [StudentServices(student_service_id, student_id, service_id, service_date)] *)
Record StudentServiceRow : Type := {
  student_service_id : str;
  log_student_id : str;
  log_service_id : str;
  service_date : date
}.

Record database : Type := {
  Students : list StudentRow;
  Services : list ServiceRow;
  StudentServices : list StudentServiceRow
}.

(** A row of [vw_StudentServiceTracker]: the three columns the script
    names, and whatever else the view selects. *)
Record TrackerRow : Type := {
  Student : str;
  Service : str;
  Date_Used : date;
  other_columns : list str
}.

(** What a foreign key of [StudentServices] does when the row it points to
    is deleted, if the key is declared at all. *)
Inductive foreign_key : Type :=
| NoForeignKey
| OnDeleteRestrict
| OnDeleteCascade.

(** The schema is not part of the repository; the script only names three
    tables and two views. The model takes it as a parameter: the collation
    the server compares text with (the weight of each character: two texts
    are equal when their weights are), the two foreign keys of
    [StudentServices], and the two views as functions of the tables. *)
Record schema : Type := {
  weight : char -> N;
  student_fk : foreign_key;
  service_fk : foreign_key;
  vw_StudentServiceTracker : database -> list TrackerRow;
  vw_RevenueReport : database -> list (list str)
}.

Definition declared (fk : foreign_key) : bool :=
  match fk with NoForeignKey => false | _ => true end.

Section Sql.

Variable sch : schema.

(** [a = b] as the server evaluates it. *)
Definition sql_eqb (a b : str) : bool :=
  str_eqb (map (weight sch) a) (map (weight sch) b).

(** [a <= b] as [ORDER BY] compares. *)
Fixpoint sql_leb (a b : str) : bool :=
  match a, b with
  | [], _ => true
  | _ :: _, [] => false
  | x :: a', y :: b' =>
      if N.ltb (weight sch x) (weight sch y) then true
      else if N.ltb (weight sch y) (weight sch x) then false
      else sql_leb a' b'
  end.

(** [s LIKE pattern]: [%] stands for any run of characters, [_] for any one
    character, every other character for the characters of its weight. (The
    escape character of [LIKE] is the backslash, which no pattern of this
    model holds: see [quoted].) *)
Fixpoint like (pattern : str) (s : str) : bool :=
  match pattern with
  | [] => match s with [] => true | _ => false end
  | c :: pattern' =>
      if N.eqb c (ch "%") then
        (fix any (s : str) : bool :=
           like pattern' s || match s with [] => false | _ :: s' => any s' end) s
      else
        match s with
        | [] => false
        | x :: s' =>
            (N.eqb c (ch "_") || N.eqb (weight sch x) (weight sch c)) && like pattern' s'
        end
  end.

(** [ORDER BY key ASC], [ORDER BY key DESC] and [sort_values]: the rows in
    an order in which the keys do not decrease. Rows with equal keys keep
    the order they came in (the server and pandas promise no order among
    them). *)
Fixpoint insert_by {A : Type} (leb : A -> A -> bool) (x : A) (l : list A) : list A :=
  match l with
  | [] => [x]
  | y :: l' => if leb x y then x :: l else y :: insert_by leb x l'
  end.

Definition sort_by {A : Type} (leb : A -> A -> bool) (l : list A) : list A :=
  fold_right (insert_by leb) [] l.

(** ** Statements the script executes *)

Inductive statement : Type :=
| InsertStudent (sid sname semail : str)
    (* INSERT INTO Students (student_id, name, email) VALUES (%s, %s, %s) *)
| InsertStudentService (log_id s_id v_id : str) (date_val : date)
    (* INSERT INTO StudentServices VALUES (%s, %s, %s, %s) *)
| UpdateEmail (new_email tid : str)
    (* UPDATE Students SET email = %s WHERE student_id = %s *)
| DeleteStudentService (log_id : str)
    (* DELETE FROM StudentServices WHERE student_service_id = %s *)
| DeleteStudent (confirm_id : str).
    (* DELETE FROM Students WHERE student_id = %s *)

Inductive db_error : Type :=
| DuplicateEntry
| ForeignKeyConstraintFails
| ServerGone.

Definition has_student (db : database) (sid : str) : bool :=
  existsb (fun s => sql_eqb (student_id s) sid) (Students db).

Definition has_service (db : database) (vid : str) : bool :=
  existsb (fun v => sql_eqb (service_id v) vid) (Services db).

Definition has_log (db : database) (log_id : str) : bool :=
  existsb (fun l => sql_eqb (student_service_id l) log_id) (StudentServices db).

Definition logs_of (db : database) (sid : str) : list StudentServiceRow :=
  filter (fun l => sql_eqb (log_student_id l) sid) (StudentServices db).

Definition set_email (new_email : str) (s : StudentRow) : StudentRow :=
  {| student_id := student_id s; name := name s; email := new_email |}.

(** Modelled from the spec: the keys of the tables, which the schema (not in
    the repository) declares. [student_id] is the key of [Students] and
    [student_service_id] the key of [StudentServices]: an insert of a key
    that exists fails. A row of [StudentServices] inserted under a declared
    foreign key must point to an existing row. An update or delete of a key
    that does not exist succeeds and changes nothing. A new row goes after
    the rows of its table. Deleting a student under [OnDeleteCascade]
    deletes the rows of [StudentServices] that point to it, under
    [OnDeleteRestrict] fails when there are such rows, and with no foreign
    key leaves them. *)
Definition execute (st : statement) (db : database) : db_error + database :=
  match st with
  | InsertStudent sid sname semail =>
      if has_student db sid then inl DuplicateEntry
      else inr {| Students := Students db ++ [{| student_id := sid; name := sname; email := semail |}];
                  Services := Services db;
                  StudentServices := StudentServices db |}
  | InsertStudentService log_id s_id v_id date_val =>
      if has_log db log_id then inl DuplicateEntry
      else if declared (student_fk sch) && negb (has_student db s_id) then inl ForeignKeyConstraintFails
      else if declared (service_fk sch) && negb (has_service db v_id) then inl ForeignKeyConstraintFails
      else inr {| Students := Students db;
                  Services := Services db;
                  StudentServices := StudentServices db ++
                    [{| student_service_id := log_id; log_student_id := s_id;
                        log_service_id := v_id; service_date := date_val |}] |}
  | UpdateEmail new_email tid =>
      inr {| Students := map (fun s => if sql_eqb (student_id s) tid then set_email new_email s else s)
                             (Students db);
             Services := Services db;
             StudentServices := StudentServices db |}
  | DeleteStudentService log_id =>
      inr {| Students := Students db;
             Services := Services db;
             StudentServices := filter (fun l => negb (sql_eqb (student_service_id l) log_id))
                                       (StudentServices db) |}
  | DeleteStudent confirm_id =>
      let rest := filter (fun s => negb (sql_eqb (student_id s) confirm_id)) (Students db) in
      if negb (has_student db confirm_id) then inr db
      else
        match student_fk sch with
        | NoForeignKey =>
            inr {| Students := rest; Services := Services db;
                   StudentServices := StudentServices db |}
        | OnDeleteRestrict =>
            match logs_of db confirm_id with
            | [] => inr {| Students := rest; Services := Services db;
                           StudentServices := StudentServices db |}
            | _ :: _ => inl ForeignKeyConstraintFails
            end
        | OnDeleteCascade =>
            inr {| Students := rest; Services := Services db;
                   StudentServices := filter (fun l => negb (sql_eqb (log_student_id l) confirm_id))
                                             (StudentServices db) |}
        end
  end.

(** ** Queries the script reads with *)

(** Text put between single quotes in a statement. The server reads it back
    as that text when it holds no quote and no backslash; with one of them
    the statement is another statement than the one the script wrote, which
    this model does not read. *)
Definition quoted (text : str) : option str :=
  if existsb (fun c : char => N.eqb c (ch "'") || N.eqb c 92) text then None else Some text.

(** [SELECT student_id, name FROM Students] *)
Definition select_students (db : database) : list (str * str) :=
  map (fun s => (student_id s, name s)) (Students db).

(** [SELECT service_id, service_name FROM Services] *)
Definition select_services (db : database) : list (str * str) :=
  map (fun v => (service_id v, service_name v)) (Services db).

(** The search query: [SELECT * FROM vw_StudentServiceTracker], to which a
    search text that is not empty adds
    [WHERE Student LIKE '{search}%' ORDER BY Student ASC]. *)
Definition search_query (search : str) : option (database -> list TrackerRow) :=
  match search with
  | [] => Some (vw_StudentServiceTracker sch)
  | _ :: _ =>
      match quoted (search ++ py "%") with
      | Some pattern =>
          Some (fun db =>
                  sort_by (fun r1 r2 => sql_leb (Student r1) (Student r2))
                    (filter (fun r => like pattern (Student r)) (vw_StudentServiceTracker sch db)))
      | None => None
      end
  end.

(** A row of the query that lists a student's service records. *)
Record LogRow : Type := {
  lr_student_service_id : str;
  lr_service_name : str;
  lr_service_date : date
}.

(** How an f-string prints what a select box returned. *)
Definition format_opt (v : option str) : str :=
  match v with Some s => s | None => py "None" end.

(** [SELECT ss.student_service_id, ser.service_name, ss.service_date
     FROM StudentServices ss
     JOIN Students s ON ss.student_id = s.student_id
     JOIN Services ser ON ss.service_id = ser.service_id
     WHERE s.name = '{student_name}'] *)
Definition logs_query (student_name : option str) : option (database -> list LogRow) :=
  match quoted (format_opt student_name) with
  | Some nm =>
      Some (fun db =>
        flat_map (fun ss =>
          flat_map (fun s =>
            if sql_eqb (log_student_id ss) (student_id s) then
              flat_map (fun ser =>
                if sql_eqb (log_service_id ss) (service_id ser) && sql_eqb (name s) nm
                then [{| lr_student_service_id := student_service_id ss;
                         lr_service_name := service_name ser;
                         lr_service_date := service_date ss |}]
                else [])
                (Services db)
            else [])
            (Students db))
          (StudentServices db))
  | None => None
  end.

End Sql.

(* ================================================================== *)
(** * Running the script *)

(** Exceptions a run can end with. *)
Inductive exn : Type :=
| MySQLError (e : db_error)           (* mysql.connector.Error, from the connector's calls *)
| PandasDatabaseError (e : db_error)  (* pandas.errors.DatabaseError, from pd.read_sql *)
| OtherException                      (* an exception of any other class: KeyError, AttributeError, ... *)
| IndexError                          (* values[0] of an empty selection *)
| RerunException.                     (* st.rerun(): the run stops and the page is run again *)

(** The data of a report, as displayed and as offered for download. *)
Inductive report_data : Type :=
| RevenueData (rows : list (list str))
| TrackerData (rows : list TrackerRow).

(** What a run puts on the page: every [st.info], [st.warning], [st.error],
    [st.success] and [st.toast], the tables and the chart, and the download
    button. Titles, subheaders, the format help of the first tab and the
    input widgets themselves are left out. *)
Inductive message : Type :=
| ErrorConnecting                 (* st.error("Error connecting to Cloud MySQL: ...") *)
| NoServiceData                   (* st.info("No service data available. ...") *)
| SearchHint                      (* st.info("Hint: Type the first letter of a name ...") *)
| DropHint                        (* st.info("Drop a single service record without ...") *)
| DeletionWarning                 (* st.error("Warning: This will delete the student and ALL ...") *)
| UsagePerService (rows : list TrackerRow)     (* the pie chart over column Service *)
| LatestActivities (rows : list TrackerRow)
| SearchResults (rows : list TrackerRow)
| IdFormatError                   (* st.error("ID format error: Must start with 'S'") *)
| InvalidEmailFormat              (* st.error("Invalid Email format.") *)
| StudentAdded (sname : str)      (* st.success("{sname} added!") *)
| ErrorShown (e : db_error)       (* st.error("Error: {e}") *)
| ServiceRegistered (selected_sv selected_st : option str)
| EmailUpdated                    (* st.success("Email updated!") *)
| ServiceRemoved (label student_name : option str)
| NotEnrolled (student_name : option str)  (* st.warning("... is not currently enrolled in any services.") *)
| RecordWiped (student_to_drop : option str)   (* st.toast("Wiped record for ...") *)
| VerificationFailed              (* st.error("Verification Failed: ID does not match.") *)
| Dataframe (d : report_data)
| DownloadButton (file_name : str) (d : report_data).

(** How a request of the run (connect, query, statement, commit) goes: it
    is answered, or the call raises [mysql.connector.Error], or the call
    raises an exception of another class ([pandas.errors.DatabaseError]
    when the call is [pd.read_sql]). *)
Inductive fault : Type :=
| Answered
| ConnectorFails
| OtherFails.

(** The state a run works on.
    - [stored]: the rows the server has committed;
    - [session]: the rows as the open connection sees them, its own
      uncommitted changes included;
    - [faults]: for each request the run will send, in order, how it goes;
      past the end of the list every request is answered;
    - [page]: the messages displayed, in order. *)
Record world : Type := {
  stored : database;
  session : database;
  faults : list fault;
  page : list message
}.

Definition set_stored (db : database) (w : world) : world :=
  {| stored := db; session := session w; faults := faults w; page := page w |}.
Definition set_session (db : database) (w : world) : world :=
  {| stored := stored w; session := db; faults := faults w; page := page w |}.
Definition set_faults (fs : list fault) (w : world) : world :=
  {| stored := stored w; session := session w; faults := fs; page := page w |}.
Definition add_message (m : message) (w : world) : world :=
  {| stored := stored w; session := session w; faults := faults w; page := page w ++ [m] |}.

(** How a piece of the script ends: with a value, with an exception, or
    ([Unmodelled]) after sending the server a statement this model does not
    read (see [quoted]). *)
Inductive outcome (A : Type) : Type :=
| Returned (a : A)
| Raised (e : exn)
| Unmodelled.

Arguments Returned {A} a.
Arguments Raised {A} e.
Arguments Unmodelled {A}.

Definition M (A : Type) : Type := world -> outcome A * world.

Definition ret {A : Type} (a : A) : M A := fun w => (Returned a, w).

Definition bind {A B : Type} (m : M A) (k : A -> M B) : M B :=
  fun w =>
    match m w with
    | (Returned a, w') => k a w'
    | (Raised e, w') => (Raised e, w')
    | (Unmodelled, w') => (Unmodelled, w')
    end.

Definition raise {A : Type} (e : exn) : M A := fun w => (Raised e, w).

Declare Scope script_scope.
Delimit Scope script_scope with script.
Notation "x <- m ;; k" := (bind m (fun x => k))
  (at level 100, m at next level, right associativity) : script_scope.
Notation "m ;; k" := (bind m (fun _ => k))
  (at level 100, right associativity) : script_scope.
Open Scope script_scope.

(** [try: body except mysql.connector.Error as e: handler] *)
Definition try_except {A : Type} (body : M A) (handler : db_error -> M A) : M A :=
  fun w =>
    match body w with
    | (Raised (MySQLError e), w') => handler e w'
    | r => r
    end.

(** A Streamlit display call. *)
Definition st (m : message) : M unit := fun w => (Returned tt, add_message m w).

(** [st.rerun()] *)
Definition st_rerun : M unit := raise RerunException.

(** How the next request goes. *)
Definition next_fault (w : world) : fault * world :=
  match faults w with
  | [] => (Answered, w)
  | f :: fs => (f, set_faults fs w)
  end.

(** [st.selectbox(label, options)]: the option the operator picked; the
    first option when the pick is not among them; [None] when there is no
    option. *)
Definition selectbox {A : Type} (options : list A) (pick : nat) : option A :=
  match nth_error options pick with
  | Some a => Some a
  | None => hd_error options
  end.

(** [column == selected], for what a select box returned. *)
Definition is_selected (selected : option str) (value : str) : bool :=
  match selected with
  | Some s => str_eqb value s
  | None => false
  end.

(** [df[keep][column].values]: the column of the rows kept, and its first
    element, if it has one. *)
Definition values0 {R V : Type} (df : list R) (keep : R -> bool) (column : R -> V) : option V :=
  hd_error (map column (filter keep df)).

(** [df[keep][column].values[0]] *)
Definition first_value {R V : Type} (df : list R) (keep : R -> bool) (column : R -> V) : M V :=
  match values0 df keep column with
  | Some v => ret v
  | None => raise IndexError
  end.

(** ** The widgets of the page *)

Inductive menu : Type := Dashboard | SearchManage | RegistrationDesk | ExportReports.

Inductive remove_mode : Type := DropSpecificService | DeleteEntireStudentProfile.

Inductive report_view : Type := RevenueReport | ServiceTracker.

(** The button whose click started this run, if one did: Streamlit runs the
    script once per click, and only the clicked button returns [True]. *)
Inductive button : Type :=
| NoButton
| RefreshSystem
| SaveStudent
| ConfirmServiceLog
| UpdateEmailButton
| DropSelectedService
| ConfirmPermanentDeletion.

Definition button_eqb (a b : button) : bool :=
  match a, b with
  | NoButton, NoButton | RefreshSystem, RefreshSystem | SaveStudent, SaveStudent
  | ConfirmServiceLog, ConfirmServiceLog | UpdateEmailButton, UpdateEmailButton
  | DropSelectedService, DropSelectedService
  | ConfirmPermanentDeletion, ConfirmPermanentDeletion => true
  | _, _ => false
  end.

(** What the operator has entered when the script runs. Every [pick_] is
    the position picked in the select box of that name. *)
Record inputs : Type := {
  clicked : button;
  choice : menu;
  search_text : str;             (* "Search Student Name" *)
  student_id_text : str;         (* "Student ID" *)
  full_name_text : str;          (* "Full Name" *)
  email_text : str;              (* "Email" *)
  log_id_text : str;             (* "Log Entry ID (Format: SS10)" *)
  pick_selected_st : nat;        (* "Select Student" *)
  pick_selected_sv : nat;        (* "Select Service" *)
  date_val : date;               (* "Service Date" *)
  pick_target_st : nat;          (* "Select Student to Update" *)
  new_email_text : str;          (* "New Email Address" *)
  remove_option : remove_mode;   (* "What would you like to do?" *)
  pick_student_name : nat;       (* "1. Select Student" *)
  pick_log_label : nat;          (* "2. Select Service to Drop" *)
  pick_student_to_drop : nat;    (* "1. Select Student Name" *)
  confirm_text : str;            (* "2. Type Student ID to confirm (...)" *)
  report : report_view           (* "Choose View" *)
}.

Section App.

Variable sch : schema.
Variable U : unicode.
Variable inp : inputs.

Definition pressed (b : button) : bool := button_eqb (clicked inp) b.

(** ** The connection *)

(** [get_db_connection()]: the connection; or, when [connect] raises
    [mysql.connector.Error], an error message and [None]. The [try] catches
    that class only: any other exception of the call (a [KeyError] of
    [st.secrets], a [ValueError] of [int], an [AttributeError] of [connect]
    for an argument it does not take) leaves the function. A new connection
    sees the committed rows. *)
Definition get_db_connection : M (option unit) :=
  fun w =>
    let (f, w1) := next_fault w in
    match f with
    | Answered => (Returned (Some tt), set_session (stored w1) w1)
    | ConnectorFails => (Returned None, add_message ErrorConnecting w1)
    | OtherFails => (Raised OtherException, w1)
    end.

(** [pd.read_sql(query, conn)] for a query the model reads as [q]. A read
    that fails raises the connector's own error (pandas lets it through
    where it opens the cursor and fetches the rows) or
    [pandas.errors.DatabaseError] (which pandas raises in place of an error
    of the cursor's [execute]). *)
Definition read_sql {A : Type} (q : option (database -> A)) : M A :=
  fun w =>
    match q with
    | None => (Unmodelled, w)
    | Some f =>
        let (fl, w1) := next_fault w in
        match fl with
        | Answered => (Returned (f (session w1)), w1)
        | ConnectorFails => (Raised (MySQLError ServerGone), w1)
        | OtherFails => (Raised (PandasDatabaseError ServerGone), w1)
        end
    end.

(** [cursor.execute(statement, params)] *)
Definition cursor_execute (s : statement) : M unit :=
  fun w =>
    let (fl, w1) := next_fault w in
    match fl with
    | Answered =>
        match execute sch s (session w1) with
        | inl e => (Raised (MySQLError e), w1)
        | inr db => (Returned tt, set_session db w1)
        end
    | ConnectorFails => (Raised (MySQLError ServerGone), w1)
    | OtherFails => (Raised OtherException, w1)
    end.

(** [conn.commit()] *)
Definition conn_commit : M unit :=
  fun w =>
    let (fl, w1) := next_fault w in
    match fl with
    | Answered => (Returned tt, set_stored (session w1) w1)
    | ConnectorFails => (Raised (MySQLError ServerGone), w1)
    | OtherFails => (Raised OtherException, w1)
    end.

(** [conn.close()]: what was not committed is gone. *)
Definition conn_close : M unit :=
  fun w => (Returned tt, set_session (stored w) w).

(** ** 1. Dashboard *)

Definition dashboard : M unit :=
  df_all <- read_sql (Some (vw_StudentServiceTracker sch)) ;;
  match df_all with
  | _ :: _ =>
      st (UsagePerService df_all) ;;
      st (LatestActivities
            (firstn 10 (sort_by (fun r1 r2 => date_leb (Date_Used r2) (Date_Used r1)) df_all)))
  | [] => st NoServiceData
  end.

(** ** 2. Search & Manage *)

Definition search_and_manage : M unit :=
  st SearchHint ;;
  let search := search_text inp in
  df <- read_sql (search_query sch search) ;;
  st (SearchResults df).

(** ** 3. Registration Desk

    The bodies of the four tabs run one after the other on every run of the
    page. *)

(** [with tab1:] Add New Student *)
Definition tab1 : M unit :=
  let sid := upper U (strip U (student_id_text inp)) in
  let sname := title U (strip U (full_name_text inp)) in
  let semail := lower U (strip U (email_text inp)) in
  if pressed SaveStudent then
    if negb (truthy (validate_id U sid)) then st IdFormatError
    else if negb (truthy (validate_email U semail)) then st InvalidEmailFormat
    else
      try_except
        (cursor_execute (InsertStudent sid sname semail) ;;
         conn_commit ;;
         st (StudentAdded sname))
        (fun e => st (ErrorShown e))
  else ret tt.

(** [with tab2:] Log Service Activity *)
Definition tab2 : M unit :=
  st_df <- read_sql (Some select_students) ;;
  sv_df <- read_sql (Some select_services) ;;
  let log_id := upper U (strip U (log_id_text inp)) in
  let selected_st := selectbox (map snd st_df) (pick_selected_st inp) in
  let selected_sv := selectbox (map snd sv_df) (pick_selected_sv inp) in
  if pressed ConfirmServiceLog then
    s_id <- first_value st_df (fun r => is_selected selected_st (snd r)) fst ;;
    v_id <- first_value sv_df (fun r => is_selected selected_sv (snd r)) fst ;;
    try_except
      (cursor_execute (InsertStudentService log_id s_id v_id (date_val inp)) ;;
       conn_commit ;;
       st (ServiceRegistered selected_sv selected_st))
      (fun e => st (ErrorShown e))
  else ret tt.

(** [with tab3:] Update Email *)
Definition tab3 : M unit :=
  st_list <- read_sql (Some select_students) ;;
  let target_st := selectbox (map snd st_list) (pick_target_st inp) in
  let new_email := lower U (strip U (new_email_text inp)) in
  if pressed UpdateEmailButton then
    if truthy (validate_email U new_email) then
      tid <- first_value st_list (fun r => is_selected target_st (snd r)) fst ;;
      cursor_execute (UpdateEmail new_email tid) ;;
      conn_commit ;;
      st EmailUpdated
    else ret tt
  else ret tt.

(** [logs_df['service_name'] + " (" + logs_df['service_date'].astype(str) + ")"] *)
Definition label (r : LogRow) : str :=
  lr_service_name r ++ py " (" ++ date_str (lr_service_date r) ++ py ")".

(** [with tab4:] Remove Records *)
Definition tab4 : M unit :=
  st_list <- read_sql (Some select_students) ;;
  match remove_option inp with
  | DropSpecificService =>
      st DropHint ;;
      let student_name := selectbox (map snd st_list) (pick_student_name inp) in
      logs_df <- read_sql (logs_query sch student_name) ;;
      match logs_df with
      | _ :: _ =>
          let selected_log_label := selectbox (map label logs_df) (pick_log_label inp) in
          if pressed DropSelectedService then
            log_id <- first_value logs_df (fun r => is_selected selected_log_label (label r))
                        lr_student_service_id ;;
            cursor_execute (DeleteStudentService log_id) ;;
            conn_commit ;;
            st (ServiceRemoved selected_log_label student_name) ;;
            st_rerun
          else ret tt
      | [] => st (NotEnrolled student_name)
      end
  | DeleteEntireStudentProfile =>
      st DeletionWarning ;;
      let student_to_drop := selectbox (map snd st_list) (pick_student_to_drop inp) in
      expected_id <- first_value st_list (fun r => is_selected student_to_drop (snd r)) fst ;;
      let confirm_id := upper U (strip U (confirm_text inp)) in
      if pressed ConfirmPermanentDeletion then
        if str_eqb confirm_id expected_id then
          cursor_execute (DeleteStudent confirm_id) ;;
          conn_commit ;;
          st (RecordWiped student_to_drop) ;;
          st_rerun
        else st VerificationFailed
      else ret tt
  end.

Definition registration_desk : M unit :=
  tab1 ;; tab2 ;; tab3 ;; tab4.

(** ** 4. Export Reports *)

Definition export_reports : M unit :=
  match report inp with
  | RevenueReport =>
      rows <- read_sql (Some (vw_RevenueReport sch)) ;;
      st (Dataframe (RevenueData rows)) ;;
      st (DownloadButton (py "vw_RevenueReport.csv") (RevenueData rows))
  | ServiceTracker =>
      rows <- read_sql (Some (vw_StudentServiceTracker sch)) ;;
      st (Dataframe (TrackerData rows)) ;;
      st (DownloadButton (py "vw_StudentServiceTracker.csv") (TrackerData rows))
  end.

(** ** [main()] *)

Definition main : M unit :=
  conn <- get_db_connection ;;
  match conn with
  | None => ret tt
  | Some _ =>
      (if pressed RefreshSystem then st_rerun else ret tt) ;;
      match choice inp with
      | Dashboard => dashboard
      | SearchManage => search_and_manage
      | RegistrationDesk => registration_desk
      | ExportReports => export_reports
      end ;;
      conn_close
  end.

(** One run of the page against the database [db], its requests going as
    [fs] says. *)
Definition run_page (fs : list fault) (db : database) : outcome unit * world :=
  main {| stored := db; session := db; faults := fs; page := [] |}.

End App.

(* ================================================================== *)
(** * Vocabulary of the specification *)

(** "The single capital letter S followed by one or more decimal digits and
    nothing else." *)
Definition spec_identifier (U : unicode) (s : str) : Prop :=
  exists digits,
    digits <> [] /\ forallb (isdecimal U) digits = true /\ s = ch "S" :: digits.

(** "local@domain.tld: one or more word/dot/hyphen characters, an @,
    word/dot/hyphen characters in the domain, and a final dot-delimited
    label." *)
Definition spec_email (U : unicode) (s : str) : Prop :=
  exists local domain tld,
    local <> [] /\ domain <> [] /\ tld <> [] /\
    forallb (word_dot_hyphen U) local = true /\
    forallb (word_dot_hyphen U) domain = true /\
    forallb (isword U) tld = true /\
    s = local ++ ch "@" :: domain ++ ch "." :: tld.

(** A text of the given shape, or such a text and one newline after it. *)
Definition with_optional_newline (shape : str -> Prop) (s : str) : Prop :=
  shape s \/ exists t, s = t ++ [LF] /\ shape t.

(** [s.startswith(p)], character for character. *)
Fixpoint startswith (s p : str) : bool :=
  match p, s with
  | [], _ => true
  | c :: p', x :: s' => N.eqb x c && startswith s' p'
  | _ :: _, [] => false
  end.

(** [s] starts with [p] as the collation of [sch] compares characters. *)
Fixpoint sql_startswith (sch : schema) (s p : str) : bool :=
  match p, s with
  | [], _ => true
  | c :: p', x :: s' => N.eqb (weight sch x) (weight sch c) && sql_startswith sch s' p'
  | _ :: _, [] => false
  end.

(** A search text with no character that [LIKE] or a quoted text reads
    specially: no [%], [_], quote or backslash. *)
Definition plain (p : str) : bool :=
  negb (existsb (fun c : char => N.eqb c (ch "%") || N.eqb c (ch "_") || N.eqb c (ch "'") || N.eqb c 92) p).

(** The collation that compares code points: case-sensitive. *)
Definition binary (sch : schema) : Prop := forall c, weight sch c = c.

(** Every row of [StudentServices] points to a student and to a service. *)
Definition references_ok (sch : schema) (db : database) : bool :=
  forallb (fun l => has_student sch db (log_student_id l) && has_service sch db (log_service_id l))
          (StudentServices db).


(** The student id a tab works on, for the position picked in its select
    box of names: the select box gives the name at that position, and
    [st_list[st_list['name'] == name]['student_id'].values[0]] the id. *)
Definition resolve (db : database) (pick : nat) : option str :=
  let st_list := select_students db in
  values0 st_list (fun r => is_selected (selectbox (map snd st_list) pick) (snd r)) fst.


(** Two states of a run with the same rows and the same page: at most
    requests were sent between them. *)
Definition same_data (w w' : world) : Prop :=
  stored w' = stored w /\ session w' = session w /\ page w' = page w.

(** The exceptions a failed [pd.read_sql] raises, and those a failed
    statement or commit raises. *)
Definition read_error (e : exn) : Prop :=
  e = MySQLError ServerGone \/ e = PandasDatabaseError ServerGone.

Definition write_error (e : exn) : Prop :=
  (exists d, e = MySQLError d) \/ e = OtherException.

(** A piece of the script that only reads: it leaves the rows and the page
    as they are, and ends normally or with the error of a failed read. *)
Definition quiet {A : Type} (m : M A) : Prop :=
  forall w o w', m w = (o, w') ->
    same_data w w' /\ ((exists e, read_error e /\ o = Raised e) \/ exists a, o = Returned a).

(** A piece of the script that writes nothing. *)
Definition harmless {A : Type} (m : M A) : Prop :=
  forall w o w', m w = (o, w') -> stored w' = stored w /\ session w' = session w.

(** ** A small database and an idle page, for the examples *)

(** Modelled from the spec: the tracker view, "a read-only joined
    projection of Students, Services, and StudentServiceLog" (its definition
    is in the schema, not in the repository): one row per service record,
    with the student's name, the service's name and the date. *)
Definition tracker_join (db : database) : list TrackerRow :=
  flat_map (fun ss =>
    flat_map (fun s =>
      if str_eqb (log_student_id ss) (student_id s) then
        flat_map (fun ser =>
          if str_eqb (log_service_id ss) (service_id ser)
          then [{| Student := name s; Service := service_name ser;
                   Date_Used := service_date ss; other_columns := [] |}]
          else [])
          (Services db)
      else [])
      (Students db))
    (StudentServices db).

Definition binary_schema (fk : foreign_key) : schema := {|
  weight := fun c => c;
  student_fk := fk;
  service_fk := fk;
  vw_StudentServiceTracker := tracker_join;
  vw_RevenueReport := fun _ => []
|}.

Definition alice : StudentRow :=
  {| student_id := py "S101"; name := py "Alice"; email := py "alice@x.com" |}.
Definition alice_too : StudentRow :=
  {| student_id := py "S102"; name := py "Alice"; email := py "al@y.org" |}.
Definition bob : StudentRow :=
  {| student_id := py "S103"; name := py "Bob"; email := py "bob@x.com" |}.

Definition tutoring : ServiceRow := {| service_id := py "V1"; service_name := py "Tutoring" |}.
Definition library : ServiceRow := {| service_id := py "V2"; service_name := py "Library" |}.

Definition march (d : N) : date := {| year := 2024; month := 3; day := d |}.

Definition sample_db : database := {|
  Students := [alice; alice_too; bob];
  Services := [tutoring; library];
  StudentServices :=
    [ {| student_service_id := py "SS1"; log_student_id := py "S101";
         log_service_id := py "V1"; service_date := march 1 |};
      {| student_service_id := py "SS2"; log_student_id := py "S101";
         log_service_id := py "V2"; service_date := march 5 |};
      {| student_service_id := py "SS3"; log_student_id := py "S103";
         log_service_id := py "V1"; service_date := march 7 |} ]
|}.

Definition no_students : database :=
  {| Students := []; Services := [tutoring; library]; StudentServices := [] |}.

(** The page as it loads: nothing typed, nothing clicked, every select box
    on its first option. *)
Definition idle : inputs := {|
  clicked := NoButton; choice := Dashboard; search_text := [];
  student_id_text := []; full_name_text := []; email_text := [];
  log_id_text := []; pick_selected_st := 0; pick_selected_sv := 0; date_val := march 9;
  pick_target_st := 0; new_email_text := [];
  remove_option := DropSpecificService; pick_student_name := 0; pick_log_label := 0;
  pick_student_to_drop := 0; confirm_text := [];
  report := RevenueReport
|}.

(** The operator opens the Registration Desk in the given mode of the last
    tab, types [text] into every text field, picks position [pick] in every
    select box and clicks [b]. *)
Definition desk (b : button) (mode : remove_mode) (text : str) (pick : nat) : inputs := {|
  clicked := b; choice := RegistrationDesk; search_text := [];
  student_id_text := text; full_name_text := text; email_text := text;
  log_id_text := text; pick_selected_st := pick; pick_selected_sv := pick; date_val := march 9;
  pick_target_st := pick; new_email_text := text;
  remove_option := mode; pick_student_name := pick; pick_log_label := pick;
  pick_student_to_drop := pick; confirm_text := text;
  report := RevenueReport
|}.

(** The operator searches for [text]. *)
Definition searching (text : str) : inputs := {|
  clicked := NoButton; choice := SearchManage; search_text := text;
  student_id_text := []; full_name_text := []; email_text := [];
  log_id_text := []; pick_selected_st := 0; pick_selected_sv := 0; date_val := march 9;
  pick_target_st := 0; new_email_text := [];
  remove_option := DropSpecificService; pick_student_name := 0; pick_log_label := 0;
  pick_student_to_drop := 0; confirm_text := [];
  report := RevenueReport
|}.

(** Evaluation of a run in which no request fails. *)
Ltac calm :=
  unfold bind, ret, raise, read_sql, cursor_execute, conn_commit, conn_close, st, st_rerun,
    get_db_connection, next_fault, set_session, set_stored, set_faults, add_message;
  cbn -[select_students select_services values0 selectbox is_selected str_eqb execute
        logs_query search_query sort_by tab4].

(** ** Vocabulary for the rest of the script *)

(** The workflow [main] runs for the page chosen in the sidebar. *)
Definition page_body (sch : schema) (U : unicode) (inp : inputs) : M unit :=
  match choice inp with
  | Dashboard => dashboard sch
  | SearchManage => search_and_manage sch inp
  | RegistrationDesk => registration_desk sch U inp
  | ExportReports => export_reports sch inp
  end.

(** A piece of the script that only adds to the page. *)
Definition grows {A : Type} (m : M A) : Prop :=
  forall w o w', m w = (o, w') -> exists l, page w' = page w ++ l.

(** A piece of the script that no [mysql.connector.Error] leaves. *)
Definition no_connector_error {A : Type} (m : M A) : Prop :=
  forall w o w', m w = (o, w') -> forall e, o <> Raised (MySQLError e).

(** The service id Log Service works on, for the position picked in its
    select box of service names. *)
Definition resolve_service (db : database) (pick : nat) : option str :=
  let sv_df := select_services db in
  values0 sv_df (fun r => is_selected (selectbox (map snd sv_df) pick) (snd r)) fst.

(** The tables with one more student, one more service record, and
    without the service records of a given id. *)
Definition with_student (db : database) (s : StudentRow) : database :=
  {| Students := Students db ++ [s]; Services := Services db;
     StudentServices := StudentServices db |}.

Definition with_log (db : database) (l : StudentServiceRow) : database :=
  {| Students := Students db; Services := Services db;
     StudentServices := StudentServices db ++ [l] |}.

Definition without_log (sch : schema) (db : database) (log_id : str) : database :=
  {| Students := Students db; Services := Services db;
     StudentServices := filter (fun l => negb (sql_eqb sch (student_service_id l) log_id))
                               (StudentServices db) |}.

(** A text with no quote and no backslash: one that [quoted] reads back. *)
Definition quotable (text : str) : bool :=
  negb (existsb (fun c : char => N.eqb c (ch "'") || N.eqb c 92) text).

(** A piece of the script that sends only statements the model reads. *)
Definition modelled {A : Type} (m : M A) : Prop :=
  forall w o w', m w = (o, w') -> o <> Unmodelled.

(** The student name selected under Drop a Specific Service holds no quote
    and no backslash: the query the tab builds from it (line 156) is the one
    the script wrote. *)
Definition selected_name_quotable (db : database) (inp : inputs) : bool :=
  quotable (format_opt (selectbox (map snd (select_students db)) (pick_student_name inp))).

(** The student row Add Student writes, and the service record Log Service
    writes for given ids. *)
Definition new_student (U : unicode) (inp : inputs) : StudentRow :=
  {| student_id := upper U (strip U (student_id_text inp));
     name := title U (strip U (full_name_text inp));
     email := lower U (strip U (email_text inp)) |}.

Definition new_log (U : unicode) (inp : inputs) (s_id v_id : str) : StudentServiceRow :=
  {| student_service_id := upper U (strip U (log_id_text inp));
     log_student_id := s_id;
     log_service_id := v_id;
     service_date := date_val inp |}.

(** The operator fills in the form of the first tab and clicks Save
    Student. *)
Definition enrolling (sid sname semail : str) : inputs := {|
  clicked := SaveStudent; choice := RegistrationDesk; search_text := [];
  student_id_text := sid; full_name_text := sname; email_text := semail;
  log_id_text := []; pick_selected_st := 0; pick_selected_sv := 0; date_val := march 9;
  pick_target_st := 0; new_email_text := [];
  remove_option := DropSpecificService; pick_student_name := 0; pick_log_label := 0;
  pick_student_to_drop := 0; confirm_text := [];
  report := RevenueReport
|}.

(* ================================================================== *)
(** * Properties of the matcher *)

Module ReFacts.
Import Re.

Lemma run_plus_class p k i rest :
  run (Plus (Class p)) i rest k = rounds_class p k (List.length rest) i rest.
Proof.
  cbn [run]. generalize (List.length rest). intros fuel. revert i rest.
  induction fuel as [|fuel IH]; intros i rest; destruct rest as [|x rest']; cbn; try reflexivity.
  destruct (p x); [|reflexivity].
  rewrite <- IH. reflexivity.
Qed.

(** With fuel for every character, a repetition of a class succeeds exactly
    when some non-empty prefix of characters of the class is followed by a
    text the continuation accepts. *)
Lemma rounds_class_some p k :
  forall fuel i rest, List.length rest <= fuel ->
    (rounds_class p k fuel i rest <> None <->
     exists pre post, rest = pre ++ post /\ pre <> [] /\ forallb p pre = true /\
                      k (i + List.length pre) post <> None).
Proof.
  induction fuel as [|fuel IH]; intros i rest Hlen.
  - destruct rest as [|x rest']; [|cbn in Hlen; lia]. cbn. split; [congruence|].
    intros (pre & post & E & Hne & _). destruct pre; [congruence | discriminate].
  - destruct rest as [|x rest'].
    + cbn. split; [congruence|].
      intros (pre & post & E & Hne & _). destruct pre; [congruence | discriminate].
    + cbn [rounds_class]. cbn in Hlen. destruct (p x) eqn:Hp.
      * replace (Nat.ltb i (S i)) with true by (symmetry; apply Nat.ltb_lt; lia).
        specialize (IH (S i) rest' ltac:(lia)).
        destruct (rounds_class p k fuel (S i) rest') as [e|] eqn:Hr.
        -- split; [|congruence]. intros _.
           destruct IH as [IH _]. destruct (IH ltac:(congruence)) as (pre & post & E & _ & Hall & Hk).
           exists (x :: pre), post. subst rest'. cbn. rewrite Hp, Hall.
           repeat split; try congruence.
           replace (i + S (List.length pre)) with (S i + List.length pre) by lia. exact Hk.
        -- split.
           ++ intros Hk. exists [x], rest'. cbn. rewrite Hp.
              repeat split; try congruence.
              replace (i + 1) with (S i) by lia. exact Hk.
           ++ intros (pre & post & E & Hne & Hall & Hk).
              destruct pre as [|y pre]; [congruence|]. cbn in E. injection E as -> ->.
              cbn in Hall. rewrite Hp in Hall. cbn in Hall.
              destruct pre as [|z pre].
              ** cbn in Hk. replace (i + 1) with (S i) in Hk by lia. exact Hk.
              ** exfalso. destruct IH as [_ IH]. apply IH; [|reflexivity].
                 exists (z :: pre), post. repeat split; try congruence.
                 replace (S i + List.length (z :: pre)) with (i + List.length (y :: z :: pre))
                   by (cbn; lia).
                 exact Hk.
      * split; [congruence|].
        intros (pre & post & E & Hne & Hall & _).
        destruct pre as [|y pre]; [congruence|]. cbn in E. injection E as -> ->.
        cbn in Hall. rewrite Hp in Hall. discriminate.
Qed.

Lemma plus_class_some p k i rest :
  run (Plus (Class p)) i rest k <> None <->
  exists pre post, rest = pre ++ post /\ pre <> [] /\ forallb p pre = true /\
                   k (i + List.length pre) post <> None.
Proof.
  rewrite run_plus_class. apply rounds_class_some. lia.
Qed.

Lemma run_cat r1 r2 i rest k :
  run (Cat r1 r2) i rest k = run r1 i rest (fun j t => run r2 j t k).
Proof. reflexivity. Qed.

Lemma run_bol rest k : run Bol 0 rest k = k 0 rest.
Proof. reflexivity. Qed.

Lemma run_lit c i rest k :
  run (Lit c) i rest k =
  match rest with
  | x :: rest' => if N.eqb x c then k (S i) rest' else None
  | [] => None
  end.
Proof. reflexivity. Qed.

Lemma lit_some c i rest k :
  run (Lit c) i rest k <> None <-> exists rest', rest = c :: rest' /\ k (S i) rest' <> None.
Proof.
  rewrite run_lit. destruct rest as [|x rest'].
  - split; [congruence|]. intros (r & E & _). discriminate.
  - destruct (N.eqb x c) eqn:Hx.
    + apply N.eqb_eq in Hx. subst x. split.
      * intros H. exists rest'. auto.
      * intros (r & E & H). injection E as ->. exact H.
    + apply N.eqb_neq in Hx. split; [congruence|].
      intros (r & E & _). injection E as -> _. congruence.
Qed.

Lemma re_match_some pattern s :
  re_match pattern s <> None <-> run pattern 0 s (fun j _ => Some j) <> None.
Proof.
  unfold re_match. destruct (run pattern 0 s _); split; congruence.
Qed.

Lemma at_eol_true rest : at_eol rest = true <-> rest = [] \/ rest = [LF].
Proof.
  destruct rest as [|c [|d rest]]; cbn.
  - split; auto.
  - rewrite N.eqb_eq. split.
    + intros ->. auto.
    + intros [H|H]; congruence.
  - split; [discriminate|]. intros [H|H]; discriminate.
Qed.

Lemma eol_some i rest :
  run Eol i rest (fun j _ => Some j) <> None <-> rest = [] \/ rest = [LF].
Proof.
  cbn [run]. rewrite <- at_eol_true. destruct (at_eol rest); split; congruence.
Qed.

End ReFacts.

(* ================================================================== *)
(** * The validators *)

Section ValidatorFacts.

Variable U : unicode.

Import Re ReFacts.

Lemma forallb_snoc_false (p : char -> bool) (l : list char) (x : char) :
  p x = false -> forallb p (l ++ [x]) = false.
Proof.
  intros Hx. rewrite forallb_app. cbn. rewrite Hx. apply andb_false_r.
Qed.

(** What [r'^S\d+$'] matches: S and digits, and possibly one newline after
    them. *)
Lemma validate_id_matches (s : str) :
  validate_id U s <> None <-> with_optional_newline (spec_identifier U) s.
Proof.
  unfold validate_id, id_pattern. rewrite re_match_some.
  rewrite run_cat, run_bol, run_cat, lit_some. split.
  - intros (rest & -> & H). rewrite run_cat, plus_class_some in H.
    destruct H as (pre & post & E & Hne & Hall & Hk).
    apply eol_some in Hk. subst rest. destruct Hk as [-> | ->].
    + left. exists pre. rewrite app_nil_r. auto.
    + right. exists (ch "S" :: pre). split; [reflexivity|]. exists pre. auto.
  - intros [(ds & Hne & Hall & E) | (t & E & ds & Hne & Hall & Et)].
    + exists ds. split; [exact E|]. rewrite run_cat, plus_class_some.
      exists ds, []. rewrite app_nil_r. repeat split; auto. apply eol_some. auto.
    + subst t s. exists (ds ++ [LF]). split; [reflexivity|].
      rewrite run_cat, plus_class_some.
      exists ds, [LF]. repeat split; auto. apply eol_some. auto.
Qed.

(** What [r'^[\w\.-]+@[\w\.-]+\.\w+$'] matches: local@domain.tld, and
    possibly one newline after it. *)
Lemma validate_email_matches (s : str) :
  validate_email U s <> None <-> with_optional_newline (spec_email U) s.
Proof.
  unfold validate_email, email_pattern. rewrite re_match_some.
  rewrite run_cat, run_bol, run_cat, plus_class_some. split.
  - intros (loc & post & E & Hloc & Hall & Hk).
    rewrite run_cat, lit_some in Hk. destruct Hk as (post1 & -> & Hk).
    rewrite run_cat, plus_class_some in Hk.
    destruct Hk as (dom & post2 & -> & Hdom & Hall2 & Hk).
    rewrite run_cat, lit_some in Hk. destruct Hk as (post3 & -> & Hk).
    rewrite run_cat, plus_class_some in Hk.
    destruct Hk as (tld & post4 & -> & Htld & Hall3 & Hk).
    apply eol_some in Hk. subst s.
    destruct Hk as [-> | ->].
    + left. exists loc, dom, tld. rewrite app_nil_r. repeat split; auto.
    + right. exists (loc ++ ch "@" :: dom ++ ch "." :: tld). split.
      * rewrite <- !app_assoc. cbn. rewrite <- !app_assoc. reflexivity.
      * exists loc, dom, tld. repeat split; auto.
  - assert (Hgo : forall loc dom tld tail,
              loc <> [] -> dom <> [] -> tld <> [] ->
              forallb (word_dot_hyphen U) loc = true ->
              forallb (word_dot_hyphen U) dom = true ->
              forallb (isword U) tld = true ->
              tail = [] \/ tail = [LF] ->
              exists pre post,
                loc ++ ch "@" :: dom ++ ch "." :: tld ++ tail = pre ++ post /\ pre <> [] /\
                forallb (word_dot_hyphen U) pre = true /\
                run (Cat (Lit (ch "@"))
                       (Cat (Plus (Class (word_dot_hyphen U)))
                          (Cat (Lit (ch ".")) (Cat (Plus (Class (isword U))) Eol))))
                    (0 + List.length pre) post (fun j _ => Some j) <> None).
    { intros loc dom tld tail Hloc Hdom Htld Hall Hall2 Hall3 He.
      exists loc, (ch "@" :: dom ++ ch "." :: tld ++ tail).
      repeat split; auto.
      rewrite run_cat, lit_some. eexists. split; [reflexivity|].
      rewrite run_cat, plus_class_some.
      exists dom, (ch "." :: tld ++ tail). repeat split; auto.
      rewrite run_cat, lit_some. eexists. split; [reflexivity|].
      rewrite run_cat, plus_class_some.
      exists tld, tail. repeat split; auto.
      apply eol_some. exact He. }
    intros [(loc & dom & tld & Hloc & Hdom & Htld & Hall & Hall2 & Hall3 & E)
           | (t & E & loc & dom & tld & Hloc & Hdom & Htld & Hall & Hall2 & Hall3 & Et)].
    + subst s. specialize (Hgo loc dom tld [] Hloc Hdom Htld Hall Hall2 Hall3 (or_introl eq_refl)).
      rewrite app_nil_r in Hgo. exact Hgo.
    + subst s t.
      specialize (Hgo loc dom tld [LF] Hloc Hdom Htld Hall Hall2 Hall3 (or_intror eq_refl)).
      rewrite <- !app_assoc. cbn. rewrite <- !app_assoc. cbn. exact Hgo.
Qed.

Lemma not_not_none {A : Type} (o : option A) : ~ o <> None -> o = None.
Proof. destruct o; [intros H; exfalso; apply H; congruence | reflexivity]. Qed.

End ValidatorFacts.

(** The examples of the specification. *)
Example validate_id_examples :
  truthy (validate_id ascii_tables (py "S101")) = true /\
  validate_id ascii_tables (py "s101") = None /\
  validate_id ascii_tables (py "S10A") = None /\
  validate_id ascii_tables (py "101") = None.
Proof. repeat split; reflexivity. Qed.

Example validate_email_examples :
  truthy (validate_email ascii_tables (py "a.b@x.com")) = true /\
  validate_email ascii_tables (py "a@b") = None /\
  validate_email ascii_tables (py "@x.com") = None /\
  validate_email ascii_tables (py "a b@x.com") = None.
Proof. repeat split; reflexivity. Qed.

(** C4. [validate_id] accepts a well-formed identifier followed by a newline:
    ["S101\n"] is not "S followed by digits and nothing else", and the
    validator returns a match object for it. *)
Theorem validate_id_accepts_trailing_newline :
  truthy (validate_id ascii_tables (py "S101" ++ [LF])) = true /\
  ~ spec_identifier ascii_tables (py "S101" ++ [LF]).
Proof.
  split; [reflexivity|].
  intros (ds & _ & Hall & E). cbn in E. injection E as <-.
  vm_compute in Hall. discriminate.
Qed.

(** C5. [validate_email] accepts a well-formed address followed by a
    newline: ["a.b@x.com\n"] does not have the shape local@domain.tld (the
    newline is no word character), and the validator returns a match object
    for it. *)
Theorem validate_email_accepts_trailing_newline :
  truthy (validate_email ascii_tables (py "a.b@x.com" ++ [LF])) = true /\
  ~ spec_email ascii_tables (py "a.b@x.com" ++ [LF]).
Proof.
  split; [reflexivity|].
  intros (loc & dom & tld & _ & _ & Htld & _ & _ & Hall & E).
  destruct (exists_last Htld) as (tld' & z & ->).
  change (loc ++ ch "@" :: dom ++ ch "." :: tld' ++ [z])
    with (loc ++ (ch "@" :: dom) ++ (ch "." :: tld') ++ [z]) in E.
  rewrite !app_assoc in E. apply app_inj_tail in E. destruct E as [_ <-].
  rewrite forallb_snoc_false in Hall; [discriminate | reflexivity].
Qed.

(** C6, as the claim states it, fails: for a string that does not match,
    the validators return [None], Python's null. *)
Lemma validators_return_none :
  ~ spec_identifier ascii_tables (py "s101") /\
  validate_id ascii_tables (py "s101") = None /\
  validate_email ascii_tables (py "a@b") = None.
Proof.
  split; [|split; reflexivity].
  intros (ds & _ & _ & E). discriminate.
Qed.

(** C6, amended. The validators are total; on a string their pattern
    matches they return a match object (true), and on every other string
    they return [None] (Python's null, which is false). *)
Theorem validators_match_or_none (U : unicode) (s : str) :
  (with_optional_newline (spec_identifier U) s -> exists m, validate_id U s = Some m) /\
  (~ with_optional_newline (spec_identifier U) s ->
     validate_id U s = None /\ truthy (validate_id U s) = false) /\
  (with_optional_newline (spec_email U) s -> exists m, validate_email U s = Some m) /\
  (~ with_optional_newline (spec_email U) s ->
     validate_email U s = None /\ truthy (validate_email U s) = false).
Proof.
  repeat split.
  - intros H. apply validate_id_matches in H.
    destruct (validate_id U s) as [m|]; [exists m; reflexivity | congruence].
  - apply not_not_none. rewrite validate_id_matches. exact H.
  - rewrite (not_not_none (validate_id U s)); [reflexivity|].
    rewrite validate_id_matches. exact H.
  - intros H. apply validate_email_matches in H.
    destruct (validate_email U s) as [m|]; [exists m; reflexivity | congruence].
  - apply not_not_none. rewrite validate_email_matches. exact H.
  - rewrite (not_not_none (validate_email U s)); [reflexivity|].
    rewrite validate_email_matches. exact H.
Qed.

(* ================================================================== *)
(** * Steps of a run *)

Lemma same_data_refl (w : world) : same_data w w.
Proof. unfold same_data. auto. Qed.

Lemma same_data_trans (w1 w2 w3 : world) :
  same_data w1 w2 -> same_data w2 w3 -> same_data w1 w3.
Proof. unfold same_data. intuition congruence. Qed.

Lemma next_fault_data (w w1 : world) (fl : fault) :
  next_fault w = (fl, w1) -> same_data w w1.
Proof.
  unfold next_fault. destruct (faults w) as [|f fs]; intros E; injection E as _ <-;
    unfold same_data; auto.
Qed.

Lemma bind_inv {A B : Type} (m : M A) (k : A -> M B) (w w' : world) (o : outcome B) :
  bind m k w = (o, w') ->
  (exists a w1, m w = (Returned a, w1) /\ k a w1 = (o, w')) \/
  (exists e, m w = (Raised e, w') /\ o = Raised e) \/
  (m w = (Unmodelled, w') /\ o = Unmodelled).
Proof.
  unfold bind. destruct (m w) as [[a|e|] w1]; intros E.
  - left. eauto.
  - injection E as <- <-. right. left. eauto.
  - injection E as <- <-. right. right. auto.
Qed.

Lemma read_error_rerun {A : Type} (e : exn) :
  read_error e -> @Raised A e <> Raised RerunException.
Proof. intros [-> | ->]; discriminate. Qed.

Lemma write_error_rerun {A : Type} (e : exn) :
  write_error e -> @Raised A e <> Raised RerunException.
Proof. intros [(d & ->) | ->]; discriminate. Qed.

Section StepFacts.

Variable sch : schema.

Lemma read_sql_spec {A : Type} (f : database -> A) (w w' : world) (o : outcome A) :
  read_sql (Some f) w = (o, w') ->
  same_data w w' /\
  ((exists e, read_error e /\ o = Raised e) \/ o = Returned (f (session w))).
Proof.
  unfold read_sql. destruct (next_fault w) as [fl w1] eqn:E.
  apply next_fault_data in E. destruct E as (Hs & Hn & Hp).
  destruct fl; intros H; injection H as <- <-;
    (split; [unfold same_data; auto|]).
  - right. rewrite Hn. reflexivity.
  - left. eexists. split; [left|]; reflexivity.
  - left. eexists. split; [right|]; reflexivity.
Qed.

Lemma cursor_execute_spec (s : statement) (w w' : world) (o : outcome unit) :
  cursor_execute sch s w = (o, w') ->
  stored w' = stored w /\ page w' = page w /\
  ((o = Returned tt /\ execute sch s (session w) = inr (session w')) \/
   (exists e, write_error e /\ o = Raised e /\ session w' = session w)).
Proof.
  unfold cursor_execute, write_error. destruct (next_fault w) as [fl w1] eqn:E.
  apply next_fault_data in E. destruct E as (Hs & Hn & Hp).
  destruct fl.
  - rewrite Hn. destruct (execute sch s (session w)) as [e|db] eqn:Ex;
      intros H; injection H as <- <-; cbn; [|auto].
    repeat split; auto. right. exists (MySQLError e). eauto.
  - intros H; injection H as <- <-. repeat split; auto.
    right. exists (MySQLError ServerGone). eauto.
  - intros H; injection H as <- <-. repeat split; auto.
    right. exists OtherException. auto.
Qed.

Lemma conn_commit_spec (w w' : world) (o : outcome unit) :
  conn_commit w = (o, w') ->
  session w' = session w /\ page w' = page w /\
  ((o = Returned tt /\ stored w' = session w) \/
   (exists e, write_error e /\ o = Raised e /\ stored w' = stored w)).
Proof.
  unfold conn_commit, write_error. destruct (next_fault w) as [fl w1] eqn:E.
  apply next_fault_data in E. destruct E as (Hs & Hn & Hp).
  destruct fl; intros H; injection H as <- <-; cbn; repeat split; auto.
  - right. exists (MySQLError ServerGone). eauto.
  - right. exists OtherException. auto.
Qed.

(** ** Pieces that only read *)

Lemma quiet_ret {A : Type} (a : A) : quiet (ret a).
Proof.
  intros w o w' E. injection E as <- <-. split; [apply same_data_refl | eauto].
Qed.

Lemma quiet_read_sql {A : Type} (f : database -> A) : quiet (read_sql (Some f)).
Proof.
  intros w o w' E. apply read_sql_spec in E. destruct E as [Hd [Ho | ->]]; eauto.
Qed.

Lemma quiet_bind {A B : Type} (m : M A) (k : A -> M B) :
  quiet m -> (forall a, quiet (k a)) -> quiet (bind m k).
Proof.
  intros Hm Hk w o w' E. apply bind_inv in E.
  destruct E as [(a & w1 & E1 & E2) | [(e & E1 & ->) | (E1 & ->)]].
  - apply Hm in E1. apply Hk in E2. destruct E1 as [D1 _], E2 as [D2 Ho].
    split; [eapply same_data_trans; eauto | exact Ho].
  - apply Hm in E1. destruct E1 as [D1 [(e' & He' & Ho) | (a & Ho)]]; [|discriminate].
    injection Ho as ->. split; [exact D1 | left; eauto].
  - apply Hm in E1. destruct E1 as [_ [(e' & _ & Ho) | (a & Ho)]]; discriminate.
Qed.

(** ** Pieces that write nothing *)

Lemma quiet_harmless {A : Type} (m : M A) : quiet m -> harmless m.
Proof.
  intros Hm w o w' E. apply Hm in E. destruct E as [(Hs & Hn & _) _]. auto.
Qed.

Lemma harmless_ret {A : Type} (a : A) : harmless (ret a).
Proof. intros w o w' E. injection E as <- <-. auto. Qed.

Lemma harmless_raise {A : Type} (e : exn) : harmless (@raise A e).
Proof. intros w o w' E. injection E as <- <-. auto. Qed.

Lemma harmless_st (m : message) : harmless (st m).
Proof. intros w o w' E. injection E as <- <-. auto. Qed.

Lemma harmless_read_sql {A : Type} (q : option (database -> A)) : harmless (read_sql q).
Proof.
  destruct q as [f|].
  - apply quiet_harmless, quiet_read_sql.
  - intros w o w' E. injection E as <- <-. auto.
Qed.

Lemma harmless_bind {A B : Type} (m : M A) (k : A -> M B) :
  harmless m -> (forall a, harmless (k a)) -> harmless (bind m k).
Proof.
  intros Hm Hk w o w' E. apply bind_inv in E.
  destruct E as [(a & w1 & E1 & E2) | [(e & E1 & ->) | (E1 & ->)]].
  - apply Hm in E1. apply Hk in E2. intuition congruence.
  - apply Hm in E1. exact E1.
  - apply Hm in E1. exact E1.
Qed.

Lemma harmless_first_value {R V : Type} (df : list R) (keep : R -> bool) (column : R -> V) :
  harmless (first_value df keep column).
Proof.
  unfold first_value. destruct (values0 df keep column);
    [apply harmless_ret | apply harmless_raise].
Qed.

End StepFacts.

(* ================================================================== *)
(** * The Registration Desk, tab by tab *)

Lemma str_eqb_eq (a b : str) : str_eqb a b = true <-> a = b.
Proof.
  revert b. induction a as [|x a IH]; intros [|y b]; cbn; try (split; congruence).
  rewrite andb_true_iff, N.eqb_eq, IH. split.
  - intros [-> ->]. reflexivity.
  - intros E. injection E as -> ->. auto.
Qed.

Lemma str_eqb_refl (a : str) : str_eqb a a = true.
Proof. apply str_eqb_eq. reflexivity. Qed.

Section DeskFacts.

Variable sch : schema.
Variable U : unicode.
Variable inp : inputs.

Lemma tab1_quiet : pressed inp SaveStudent = false -> quiet (tab1 sch U inp).
Proof.
  intros H. unfold tab1. cbv zeta. rewrite H. apply quiet_ret.
Qed.

Lemma tab2_quiet : pressed inp ConfirmServiceLog = false -> quiet (tab2 sch U inp).
Proof.
  intros H. unfold tab2.
  apply quiet_bind; [apply quiet_read_sql|]. intros st_df.
  apply quiet_bind; [apply quiet_read_sql|]. intros sv_df.
  cbv zeta. rewrite H. apply quiet_ret.
Qed.

Lemma tab3_quiet : pressed inp UpdateEmailButton = false -> quiet (tab3 sch U inp).
Proof.
  intros H. unfold tab3.
  apply quiet_bind; [apply quiet_read_sql|]. intros st_list.
  cbv zeta. rewrite H. apply quiet_ret.
Qed.

Lemma tab4_harmless :
  pressed inp DropSelectedService = false ->
  pressed inp ConfirmPermanentDeletion = false ->
  harmless (tab4 sch U inp).
Proof.
  intros H1 H2. unfold tab4.
  apply harmless_bind; [apply harmless_read_sql|]. intros st_list.
  destruct (remove_option inp).
  - apply harmless_bind; [apply harmless_st|]. intros _.
    cbv zeta. apply harmless_bind; [apply harmless_read_sql|]. intros logs_df.
    destruct logs_df; [apply harmless_st|]. rewrite H1. apply harmless_ret.
  - apply harmless_bind; [apply harmless_st|]. intros _.
    cbv zeta. apply harmless_bind; [apply harmless_first_value|]. intros expected_id.
    rewrite H2. apply harmless_ret.
Qed.

(** The last tab when the operator confirms a deletion: either nothing is
    committed, or the typed id is the id of the selected student, the
    [DELETE] was executed and committed, and the run ends in [st.rerun()]. *)
Lemma tab4_delete_spec (w w' : world) (o : outcome unit) :
  remove_option inp = DeleteEntireStudentProfile ->
  pressed inp ConfirmPermanentDeletion = true ->
  session w = stored w ->
  tab4 sch U inp w = (o, w') ->
  let confirm_id := upper U (strip U (confirm_text inp)) in
  (stored w' = stored w /\ o <> Raised RerunException) \/
  (o = Raised RerunException /\
   resolve (stored w) (pick_student_to_drop inp) = Some confirm_id /\
   execute sch (DeleteStudent confirm_id) (stored w) = inr (stored w')).
Proof.
  intros Hmode Hpress Hsess E. cbv zeta. unfold tab4 in E.
  apply bind_inv in E.
  destruct E as [(st_list & w1 & E1 & E) | [(e & E1 & ->) | (E1 & ->)]];
    apply read_sql_spec in E1; destruct E1 as [(Hs1 & Hn1 & Hp1) Ho1].
  2: { left. split; [exact Hs1|]. destruct Ho1 as [(e0 & He0 & Ho1)|Ho1]; [|discriminate].
       injection Ho1 as ->. exact (read_error_rerun _ He0). }
  2: { destruct Ho1 as [(e0 & _ & Ho1)|Ho1]; discriminate. }
  destruct Ho1 as [(? & _ & Ho1)|Ho1]; [discriminate|]. injection Ho1 as ->.
  rewrite Hmode in E. unfold bind at 1 in E. cbn [st] in E. cbv zeta in E.
  set (v1 := add_message DeletionWarning w1) in E.
  assert (Hs1' : stored v1 = stored w) by exact Hs1.
  assert (Hn1' : session v1 = session w) by exact Hn1.
  clearbody v1. clear Hs1 Hn1 Hp1 w1. rename Hs1' into Hs1, Hn1' into Hn1.
  apply bind_inv in E.
  destruct E as [(expected_id & w2 & E2 & E) | [(e & E2 & ->) | (E2 & ->)]];
    unfold first_value in E2;
    destruct (values0 (select_students (session w)) _ fst) as [v|] eqn:Hv;
    try discriminate; injection E2 as ? ?; subst.
  2: { left. split; [exact Hs1 | discriminate]. }
  rewrite Hpress in E.
  destruct (str_eqb (upper U (strip U (confirm_text inp))) expected_id) eqn:Hc.
  2: { injection E as <- <-. left. split; [exact Hs1 | discriminate]. }
  apply str_eqb_eq in Hc. subst expected_id.
  apply bind_inv in E.
  destruct E as [([] & w3 & E3 & E) | [(e & E3 & ->) | (E3 & ->)]];
    apply cursor_execute_spec in E3; destruct E3 as (Hs3 & Hp3 & Ho3).
  2: { left. split; [congruence|]. destruct Ho3 as [[Ho3 _] | (e' & He' & Ho3 & _)];
       [discriminate | injection Ho3 as ->; exact (write_error_rerun _ He')]. }
  2: { destruct Ho3 as [[Ho3 _] | (e' & He' & Ho3 & _)]; discriminate. }
  destruct Ho3 as [[_ Hex] | (e' & He' & Ho3 & _)]; [|discriminate].
  apply bind_inv in E.
  destruct E as [([] & w4 & E4 & E) | [(e & E4 & ->) | (E4 & ->)]];
    apply conn_commit_spec in E4; destruct E4 as (Hn4 & Hp4 & Ho4).
  2: { left. destruct Ho4 as [[Ho4 _] | (e' & He' & Ho4 & Hs4)]; [discriminate|].
       split; [congruence | injection Ho4 as ->; exact (write_error_rerun _ He')]. }
  2: { destruct Ho4 as [[Ho4 _] | (e' & He' & Ho4 & _)]; discriminate. }
  destruct Ho4 as [[_ Hs4] | (e' & He' & Ho4 & _)]; [|discriminate].
  cbn in E. injection E as <- <-. right. cbn.
  split; [reflexivity|]. split.
  - unfold resolve. cbv zeta. rewrite <- Hsess. exact Hv.
  - rewrite <- Hsess, <- Hn1, Hs4. exact Hex.
Qed.

End DeskFacts.

(* ================================================================== *)
(** * What a [DELETE] of a student does to the tables *)

Section SqlFacts.

Variable sch : schema.

Lemma sql_eqb_eq (a b : str) :
  sql_eqb sch a b = true <-> map (weight sch) a = map (weight sch) b.
Proof. unfold sql_eqb. apply str_eqb_eq. Qed.

Lemma sql_eqb_refl (a : str) : sql_eqb sch a a = true.
Proof. apply sql_eqb_eq. reflexivity. Qed.

Lemma sql_eqb_sym (a b : str) : sql_eqb sch a b = sql_eqb sch b a.
Proof.
  destruct (sql_eqb sch a b) eqn:E1, (sql_eqb sch b a) eqn:E2; try reflexivity.
  - apply sql_eqb_eq in E1. symmetry in E1. apply sql_eqb_eq in E1. congruence.
  - apply sql_eqb_eq in E2. symmetry in E2. apply sql_eqb_eq in E2. congruence.
Qed.

Lemma sql_eqb_trans (a b c : str) :
  sql_eqb sch a b = true -> sql_eqb sch b c = true -> sql_eqb sch a c = true.
Proof. rewrite !sql_eqb_eq. congruence. Qed.

Lemma has_student_iff (db : database) (sid : str) :
  has_student sch db sid = true <->
  exists s, In s (Students db) /\ sql_eqb sch (student_id s) sid = true.
Proof. unfold has_student. apply existsb_exists. Qed.

Lemma has_student_after_delete (l : list StudentRow) (X : str) :
  existsb (fun s => sql_eqb sch (student_id s) X)
          (filter (fun s => negb (sql_eqb sch (student_id s) X)) l) = false.
Proof.
  induction l as [|s l IH]; cbn; [reflexivity|].
  destruct (sql_eqb sch (student_id s) X) eqn:E; cbn; [exact IH|].
  rewrite E. exact IH.
Qed.

Lemma filter_nil_false {A : Type} (f : A -> bool) (l : list A) :
  filter f l = [] -> forall x, In x l -> f x = false.
Proof.
  intros Hnil x Hin. destruct (f x) eqn:E; [|reflexivity].
  assert (Hx : In x (filter f l)) by (apply filter_In; auto).
  rewrite Hnil in Hx. destruct Hx.
Qed.

Lemma filter_filter_negb_nil {A : Type} (f : A -> bool) (l : list A) :
  filter f (filter (fun x => negb (f x)) l) = [].
Proof.
  induction l as [|x l IH]; cbn; [reflexivity|].
  destruct (f x) eqn:E; cbn; [exact IH|]. rewrite E. exact IH.
Qed.

(** Rows that pointed to a student other than the deleted one still point
    to a student. *)
Lemma references_kept (db : database) (X : str) (logs : list StudentServiceRow) :
  (forall l, In l logs -> In l (StudentServices db) /\ sql_eqb sch (log_student_id l) X = false) ->
  references_ok sch db = true ->
  references_ok sch
    {| Students := filter (fun s => negb (sql_eqb sch (student_id s) X)) (Students db);
       Services := Services db;
       StudentServices := logs |} = true.
Proof.
  intros Hlogs Hok. unfold references_ok in *. cbn [StudentServices].
  apply forallb_forall. intros l Hl. destruct (Hlogs l Hl) as [Hin Hne].
  rewrite forallb_forall in Hok. specialize (Hok l Hin).
  apply andb_true_iff in Hok. destruct Hok as [Hst Hsv].
  apply andb_true_iff. split; [|exact Hsv].
  apply has_student_iff in Hst. destruct Hst as (s & Hs & Heq).
  apply has_student_iff. exists s. split; [|exact Heq].
  cbn [Students]. apply filter_In. split; [exact Hs|].
  destruct (sql_eqb sch (student_id s) X) eqn:E; [|reflexivity].
  rewrite sql_eqb_sym in Heq. rewrite (sql_eqb_trans _ _ _ Heq E) in Hne. discriminate.
Qed.

(** Under a declared foreign key, a [DELETE] of a student that succeeds
    leaves no row of that student in either table, and every remaining
    service record still points to a student and a service. *)
Lemma delete_student_spec (db db' : database) (X : str) :
  student_fk sch <> NoForeignKey ->
  has_student sch db X = true ->
  execute sch (DeleteStudent X) db = inr db' ->
  Students db' = filter (fun s => negb (sql_eqb sch (student_id s) X)) (Students db) /\
  Services db' = Services db /\
  has_student sch db' X = false /\
  logs_of sch db' X = [] /\
  (references_ok sch db = true -> references_ok sch db' = true).
Proof.
  intros Hfk Hhas E. cbn [execute] in E. rewrite Hhas in E. cbn [negb] in E.
  destruct (student_fk sch) eqn:Hk; [congruence| |].
  - destruct (logs_of sch db X) as [|l0 ls] eqn:Hlogs; [|discriminate].
    injection E as <-. cbn [Students Services].
    repeat split.
    + unfold has_student. cbn [Students]. apply has_student_after_delete.
    + exact Hlogs.
    + intros Hok. apply references_kept; [|exact Hok].
      intros l Hl. split; [exact Hl|].
      apply (filter_nil_false _ _ Hlogs l Hl).
  - injection E as <-. cbn [Students Services].
    repeat split.
    + unfold has_student. cbn [Students]. apply has_student_after_delete.
    + unfold logs_of. cbn [StudentServices].
      apply (filter_filter_negb_nil (fun l => sql_eqb sch (log_student_id l) X)).
    + intros Hok. apply references_kept; [|exact Hok].
      intros l Hl. apply filter_In in Hl. destruct Hl as [Hl Hne].
      split; [exact Hl|]. destruct (sql_eqb sch (log_student_id l) X); [discriminate|reflexivity].
Qed.

Lemma values0_in {R V : Type} (df : list R) (keep : R -> bool) (column : R -> V) (v : V) :
  values0 df keep column = Some v -> exists r, In r df /\ keep r = true /\ column r = v.
Proof.
  unfold values0. destruct (filter keep df) as [|r rs] eqn:E; [discriminate|].
  cbn. intros H. injection H as <-.
  assert (Hr : In r (filter keep df)) by (rewrite E; left; reflexivity).
  apply filter_In in Hr. exists r. tauto.
Qed.

Lemma resolve_has_student (db : database) (pick : nat) (X : str) :
  resolve db pick = Some X -> has_student sch db X = true.
Proof.
  unfold resolve. cbv zeta. intros H. apply values0_in in H.
  destruct H as ([sid nm] & Hin & _ & Hc). cbn in Hc. subst sid.
  unfold select_students in Hin. apply in_map_iff in Hin.
  destruct Hin as (s & Hs & Hin). injection Hs as Hid _.
  apply has_student_iff. exists s. split; [exact Hin|].
  rewrite Hid. apply sql_eqb_refl.
Qed.

End SqlFacts.

(* ================================================================== *)
(** * A run of the Registration Desk *)

Section DeskRuns.

Variable sch : schema.
Variable U : unicode.
Variable inp : inputs.

(** A run on the Registration Desk either fails to connect (an error
    message or an exception, nothing else), or runs the four tabs on the
    committed rows. *)
Lemma run_page_desk (fs : list fault) (db : database) (o : outcome unit) (w' : world) :
  pressed inp RefreshSystem = false ->
  choice inp = RegistrationDesk ->
  run_page sch U inp fs db = (o, w') ->
  ((o = Returned tt \/ o = Raised OtherException) /\ stored w' = db /\
   page w' = match o with Returned _ => [ErrorConnecting] | _ => [] end) \/
  exists w0 w1,
    stored w0 = db /\ session w0 = db /\ page w0 = [] /\
    registration_desk sch U inp w0 = (o, w1) /\
    stored w' = stored w1 /\ page w' = page w1.
Proof.
  intros Hr Hc E. unfold run_page, main in E. rewrite Hr, Hc in E.
  unfold bind at 1 in E. unfold get_db_connection in E.
  destruct (next_fault _) as [fl w0] eqn:Ef.
  apply next_fault_data in Ef. destruct Ef as (Hs & Hn & Hp). cbn in Hs, Hn, Hp.
  destruct fl.
  - right. cbn [ret bind] in E. unfold bind in E.
    destruct (registration_desk sch U inp (set_session (stored w0) w0)) as [[[]|e|] w1] eqn:Ed.
    + unfold conn_close in E. injection E as <- <-.
      exists (set_session (stored w0) w0), w1. cbn. repeat split; assumption || reflexivity.
    + injection E as <- <-.
      exists (set_session (stored w0) w0), w1. cbn. repeat split; assumption || reflexivity.
    + injection E as <- <-.
      exists (set_session (stored w0) w0), w1. cbn. repeat split; assumption || reflexivity.
  - cbn in E. unfold ret in E. injection E as <- <-. left. cbn. rewrite Hs, Hp. auto.
  - injection E as <- <-. left. rewrite Hs, Hp. auto.
Qed.

(** When no button of the first three tabs was clicked, they only read:
    either one of their reads fails, or the last tab runs on the same rows. *)
Lemma desk_reaches_tab4 (w w' : world) (o : outcome unit) :
  pressed inp SaveStudent = false ->
  pressed inp ConfirmServiceLog = false ->
  pressed inp UpdateEmailButton = false ->
  registration_desk sch U inp w = (o, w') ->
  (same_data w w' /\ exists e, read_error e /\ o = Raised e) \/
  exists w1, same_data w w1 /\ tab4 sch U inp w1 = (o, w').
Proof.
  intros H1 H2 H3 E. unfold registration_desk in E.
  assert (Hq : forall (m : M unit) w o w', quiet m -> m w = (o, w') ->
                 same_data w w' /\
                 ((exists e, read_error e /\ o = Raised e) \/ o = Returned tt)).
  { intros m v o' v' Hm Em. apply Hm in Em. destruct Em as [D [Ho | ([] & Ho)]]; auto. }
  apply bind_inv in E.
  destruct E as [([] & w1 & E1 & E) | [(e & E1 & ->) | (E1 & ->)]];
    apply (Hq _ _ _ _ (tab1_quiet sch U inp H1)) in E1;
    destruct E1 as [D1 [(e1 & He1 & Ho)|Ho]];
    try discriminate; [|left; auto; split; [exact D1 | eauto]].
  apply bind_inv in E.
  destruct E as [([] & w2 & E2 & E) | [(e & E2 & ->) | (E2 & ->)]];
    apply (Hq _ _ _ _ (tab2_quiet sch U inp H2)) in E2;
    destruct E2 as [D2 [(e2 & He2 & Ho2)|Ho2]];
    try discriminate;
    [|left; split; [eapply same_data_trans; eauto | eauto]].
  apply bind_inv in E.
  destruct E as [([] & w3 & E3 & E) | [(e & E3 & ->) | (E3 & ->)]];
    apply (Hq _ _ _ _ (tab3_quiet sch U inp H3)) in E3;
    destruct E3 as [D3 [(e3 & He3 & Ho3)|Ho3]];
    try discriminate.
  - right. exists w3. split; [|exact E].
    eapply same_data_trans; [|exact D3]. eapply same_data_trans; eauto.
  - left. split; [|eauto].
    eapply same_data_trans; [|exact D3]. eapply same_data_trans; eauto.
Qed.

(** A run in which the operator confirms a deletion either commits
    nothing, or ends in [st.rerun()] after the [DELETE] of the typed id,
    which is then the id of the selected student. *)
Lemma confirmed_deletion_run (fs : list fault) (db : database) (o : outcome unit) (w' : world) :
  choice inp = RegistrationDesk ->
  remove_option inp = DeleteEntireStudentProfile ->
  clicked inp = ConfirmPermanentDeletion ->
  run_page sch U inp fs db = (o, w') ->
  let confirm_id := upper U (strip U (confirm_text inp)) in
  (stored w' = db /\ o <> Raised RerunException) \/
  (o = Raised RerunException /\
   resolve db (pick_student_to_drop inp) = Some confirm_id /\
   execute sch (DeleteStudent confirm_id) db = inr (stored w')).
Proof.
  intros Hc Hm Hb E. cbv zeta.
  assert (Hp : forall b, pressed inp b = button_eqb ConfirmPermanentDeletion b)
    by (intros b; unfold pressed; rewrite Hb; reflexivity).
  apply run_page_desk in E; [| rewrite Hp; reflexivity | exact Hc].
  destruct E as [(Ho & Hs & _) | (w0 & w1 & Hs0 & Hn0 & Hp0 & E & Hs1 & Hp1)].
  { left. split; [exact Hs | destruct Ho as [-> | ->]; discriminate]. }
  apply desk_reaches_tab4 in E; try (rewrite Hp; reflexivity).
  destruct E as [[(Hs & _ & _) (e & He & ->)] | (w2 & (Hs2 & Hn2 & _) & E)].
  { left. split; [congruence | exact (read_error_rerun _ He)]. }
  apply tab4_delete_spec in E; [| exact Hm | rewrite Hp; reflexivity | congruence].
  cbv zeta in E. rewrite Hs2, Hs0, <- Hs1 in E. exact E.
Qed.

End DeskRuns.

(** C1, as the claim states it, fails: the text the operator types is
    stripped and put in upper case before it is compared, so a typed text
    that differs from the student id can still delete the student and the
    student's service records. *)
Lemma delete_student_typed_lower_case :
  let typed := py " s101 " in
  let result :=
    run_page (binary_schema OnDeleteCascade) ascii_tables
      (desk ConfirmPermanentDeletion DeleteEntireStudentProfile typed 0) [] sample_db in
  resolve sample_db 0 = Some (py "S101") /\
  typed <> py "S101" /\
  fst result = Raised RerunException /\
  Students (stored (snd result)) = [alice_too; bob] /\
  logs_of (binary_schema OnDeleteCascade) (stored (snd result)) (py "S101") = [].
Proof.
  cbv zeta. repeat split; try reflexivity. discriminate.
Qed.

(** C1, amended. When the operator confirms the deletion of the selected
    student with a typed text that, stripped and in upper case, differs from
    the student's id, nothing is committed, whatever requests fail: every
    table is as it was. When no request fails, the run displays the
    verification failure (after the warning that stands above the select
    box) and ends normally. Conversely, a run that changes a
    table was given a text that is the id once stripped and in upper case. *)
Theorem delete_student_needs_confirmation
    (sch : schema) (U : unicode) (inp : inputs) (fs : list fault) (db : database)
    (expected_id : str) :
  choice inp = RegistrationDesk ->
  remove_option inp = DeleteEntireStudentProfile ->
  clicked inp = ConfirmPermanentDeletion ->
  resolve db (pick_student_to_drop inp) = Some expected_id ->
  let confirm_id := upper U (strip U (confirm_text inp)) in
  (confirm_id <> expected_id ->
     stored (snd (run_page sch U inp fs db)) = db /\
     run_page sch U inp [] db =
       (Returned tt, {| stored := db; session := db; faults := [];
                        page := [DeletionWarning; VerificationFailed] |})) /\
  (stored (snd (run_page sch U inp fs db)) <> db -> confirm_id = expected_id).
Proof.
  intros Hc Hm Hb He. cbv zeta.
  assert (Hrun : stored (snd (run_page sch U inp fs db)) = db \/
                 upper U (strip U (confirm_text inp)) = expected_id).
  { destruct (run_page sch U inp fs db) as [o w'] eqn:E.
    apply confirmed_deletion_run in E; auto.
    cbv zeta in E. destruct E as [[Hs _] | (_ & Hr & _)]; [left; exact Hs|].
    right. congruence. }
  split.
  - intros Hne. split; [destruct Hrun; [assumption | contradiction]|].
    unfold run_page, main, registration_desk, tab1, tab2, tab3, tab4, pressed.
    rewrite Hc, Hm, Hb. unfold first_value. calm.
    unfold resolve in He. cbv zeta in He. rewrite He. calm.
    destruct (str_eqb (upper U (strip U (confirm_text inp))) expected_id) eqn:Heq.
    + apply str_eqb_eq in Heq. contradiction.
    + reflexivity.
  - intros Hch. destruct Hrun; [contradiction | assumption].
Qed.

Lemma delete_student_needs_confirmation_witness :
  let inp := desk ConfirmPermanentDeletion DeleteEntireStudentProfile (py "S102") 1 in
  let sch := binary_schema OnDeleteCascade in
  (py "S102" <> py "S101" ->
     stored (snd (run_page sch ascii_tables inp [Answered; Answered; Answered; Answered; Answered; ConnectorFails] sample_db))
       = sample_db /\
     run_page sch ascii_tables inp [] sample_db =
       (Returned tt, {| stored := sample_db; session := sample_db; faults := [];
                        page := [DeletionWarning; VerificationFailed] |})) /\
  (stored (snd (run_page sch ascii_tables inp [Answered; Answered; Answered; Answered; Answered; ConnectorFails] sample_db))
     <> sample_db -> py "S102" = py "S101").
Proof.
  cbv zeta.
  apply (delete_student_needs_confirmation (binary_schema OnDeleteCascade) ascii_tables
           (desk ConfirmPermanentDeletion DeleteEntireStudentProfile (py "S102") 1)
           [Answered; Answered; Answered; Answered; Answered; ConnectorFails] sample_db (py "S101"));
    reflexivity.
Defined.

(** Under [ON DELETE CASCADE], a confirmed deletion of the selected student
    does complete when no request fails: the run ends in [st.rerun()] after
    the toast. *)
Lemma confirmed_delete_completes
    (sch : schema) (U : unicode) (inp : inputs) (db : database) :
  student_fk sch = OnDeleteCascade ->
  choice inp = RegistrationDesk ->
  remove_option inp = DeleteEntireStudentProfile ->
  clicked inp = ConfirmPermanentDeletion ->
  resolve db (pick_student_to_drop inp) = Some (upper U (strip U (confirm_text inp))) ->
  exists db',
    execute sch (DeleteStudent (upper U (strip U (confirm_text inp)))) db = inr db' /\
    run_page sch U inp [] db =
      (Raised RerunException,
       {| stored := db'; session := db'; faults := [];
          page := [DeletionWarning;
                   RecordWiped (selectbox (map snd (select_students db))
                                          (pick_student_to_drop inp))] |}).
Proof.
  intros Hfk Hc Hm Hb He.
  destruct (execute sch (DeleteStudent (upper U (strip U (confirm_text inp)))) db)
    as [e|db'] eqn:Hex.
  { cbn [execute] in Hex. rewrite Hfk in Hex.
    destruct (negb _) in Hex; discriminate. }
  exists db'. split; [reflexivity|].
  unfold run_page, main, registration_desk, tab1, tab2, tab3, tab4, pressed.
  rewrite Hc, Hm, Hb. unfold first_value. calm.
  unfold resolve in He. cbv zeta in He. rewrite He. calm.
  rewrite str_eqb_refl. calm. rewrite Hex. reflexivity.
Qed.

(** C2. After a confirmed Delete-Student has completed (the run ends in
    [st.rerun()]) the deleted id X is the id of the selected student, no row
    of [Students] has id X, no row of [StudentServices] has student id X,
    and, if every service record pointed to a student and a service before,
    every remaining one still does. The schema is taken to declare the
    foreign key from [StudentServices] to [Students]. *)
Theorem confirmed_delete_removes_student_and_logs
    (sch : schema) (U : unicode) (inp : inputs) (fs : list fault) (db : database)
    (w' : world) :
  student_fk sch <> NoForeignKey ->
  choice inp = RegistrationDesk ->
  remove_option inp = DeleteEntireStudentProfile ->
  clicked inp = ConfirmPermanentDeletion ->
  run_page sch U inp fs db = (Raised RerunException, w') ->
  let X := upper U (strip U (confirm_text inp)) in
  resolve db (pick_student_to_drop inp) = Some X /\
  has_student sch (stored w') X = false /\
  logs_of sch (stored w') X = [] /\
  (forall s, In s (Students (stored w')) -> student_id s <> X) /\
  (forall l, In l (StudentServices (stored w')) -> log_student_id l <> X) /\
  (references_ok sch db = true -> references_ok sch (stored w') = true).
Proof.
  intros Hfk Hc Hm Hb E. cbv zeta.
  apply confirmed_deletion_run in E; auto. cbv zeta in E.
  destruct E as [[_ Ho] | (_ & Hr & Hex)]; [congruence|].
  pose proof (resolve_has_student sch _ _ _ Hr) as Hhas.
  destruct (delete_student_spec sch db _ _ Hfk Hhas Hex) as (_ & _ & Hno & Hlogs & Hok).
  repeat split; auto.
  - intros s Hs Heq.
    assert (Hyes : has_student sch (stored w') (upper U (strip U (confirm_text inp))) = true).
    { apply has_student_iff. exists s. split; [exact Hs|]. rewrite Heq. apply sql_eqb_refl. }
    congruence.
  - intros l Hl Heq.
    pose proof (filter_nil_false _ _ Hlogs l Hl) as Hf. cbn in Hf.
    rewrite Heq, sql_eqb_refl in Hf. discriminate.
Qed.

Lemma confirmed_delete_removes_student_and_logs_witness :
  let sch := binary_schema OnDeleteCascade in
  let inp := desk ConfirmPermanentDeletion DeleteEntireStudentProfile (py " s101 ") 0 in
  let after := stored (snd (run_page sch ascii_tables inp [] sample_db)) in
  resolve sample_db 0 = Some (py "S101") /\
  has_student sch after (py "S101") = false /\
  logs_of sch after (py "S101") = [] /\
  (forall s, In s (Students after) -> student_id s <> py "S101") /\
  (forall l, In l (StudentServices after) -> log_student_id l <> py "S101") /\
  (references_ok sch sample_db = true -> references_ok sch after = true).
Proof.
  cbv zeta.
  apply (confirmed_delete_removes_student_and_logs (binary_schema OnDeleteCascade) ascii_tables
           (desk ConfirmPermanentDeletion DeleteEntireStudentProfile (py " s101 ") 0)
           [] sample_db
           (snd (run_page (binary_schema OnDeleteCascade) ascii_tables
                   (desk ConfirmPermanentDeletion DeleteEntireStudentProfile (py " s101 ") 0)
                   [] sample_db)));
    try reflexivity.
  discriminate.
Defined.

(** Without the foreign key the same deletion leaves the student's service
    records behind: the cascade is the schema's, not the script's. *)
Example delete_without_foreign_key_orphans_logs :
  let after :=
    stored (snd (run_page (binary_schema NoForeignKey) ascii_tables
                   (desk ConfirmPermanentDeletion DeleteEntireStudentProfile (py "S101") 0)
                   [] sample_db)) in
  Students after = [alice_too; bob] /\
  map student_service_id (logs_of (binary_schema NoForeignKey) after (py "S101"))
    = [py "SS1"; py "SS2"].
Proof. cbv zeta. split; reflexivity. Qed.

(* ================================================================== *)
(** * Search & Manage *)

Section SearchFacts.

Variable sch : schema.

(** ** [ORDER BY] *)

Lemma insert_by_perm {A : Type} (leb : A -> A -> bool) (x : A) (l : list A) :
  Permutation (insert_by leb x l) (x :: l).
Proof.
  induction l as [|y l IH]; cbn; [reflexivity|].
  destruct (leb x y); [reflexivity|].
  rewrite IH. apply perm_swap.
Qed.

Lemma sort_by_perm {A : Type} (leb : A -> A -> bool) (l : list A) :
  Permutation (sort_by leb l) l.
Proof.
  induction l as [|x l IH]; cbn; [reflexivity|].
  rewrite insert_by_perm. constructor. exact IH.
Qed.

Section Order.

Variable A : Type.
Variable leb : A -> A -> bool.
Hypothesis leb_total : forall x y, leb x y = false -> leb y x = true.
Hypothesis leb_trans : forall x y z, leb x y = true -> leb y z = true -> leb x z = true.

Lemma insert_by_sorted (x : A) (l : list A) :
  StronglySorted (fun a b => leb a b = true) l ->
  StronglySorted (fun a b => leb a b = true) (insert_by leb x l).
Proof.
  induction 1 as [|y l Hs IH Hall]; cbn.
  - repeat constructor.
  - destruct (leb x y) eqn:E.
    + constructor; [constructor; assumption|].
      constructor; [exact E|].
      eapply Forall_impl; [|exact Hall]. intros z Hz. eapply leb_trans; eauto.
    + constructor; [exact IH|].
      assert (Hp : Permutation (insert_by leb x l) (x :: l)) by apply insert_by_perm.
      eapply Permutation_Forall; [symmetry; exact Hp|].
      constructor; [apply leb_total; exact E | exact Hall].
Qed.

Lemma sort_by_sorted (l : list A) : StronglySorted (fun a b => leb a b = true) (sort_by leb l).
Proof.
  induction l as [|x l IH]; cbn; [constructor|].
  apply insert_by_sorted. exact IH.
Qed.

End Order.

Lemma sql_leb_total (a b : str) : sql_leb sch a b = false -> sql_leb sch b a = true.
Proof.
  revert b. induction a as [|x a IH]; intros [|y b]; cbn; try congruence.
  destruct (N.ltb (weight sch x) (weight sch y)) eqn:E1; [discriminate|].
  destruct (N.ltb (weight sch y) (weight sch x)) eqn:E2; [reflexivity|].
  apply IH.
Qed.

Lemma sql_leb_trans (a b c : str) :
  sql_leb sch a b = true -> sql_leb sch b c = true -> sql_leb sch a c = true.
Proof.
  revert b c. induction a as [|x a IH]; intros [|y b] [|z c]; cbn; try congruence.
  destruct (N.ltb (weight sch x) (weight sch y)) eqn:E1;
    destruct (N.ltb (weight sch y) (weight sch x)) eqn:E2;
    destruct (N.ltb (weight sch y) (weight sch z)) eqn:E3;
    destruct (N.ltb (weight sch z) (weight sch y)) eqn:E4;
    destruct (N.ltb (weight sch x) (weight sch z)) eqn:E5;
    destruct (N.ltb (weight sch z) (weight sch x)) eqn:E6;
    try congruence;
    try (rewrite ?N.ltb_lt, ?N.ltb_ge in *; lia).
  apply IH.
Qed.

(** ** [LIKE] *)

Lemma like_percent (s : str) : like sch [ch "%"] s = true.
Proof.
  cbn. induction s as [|x s IH]; [reflexivity|]. cbn. exact IH.
Qed.

Lemma plain_cons (c : char) (p : str) :
  plain (c :: p) = true ->
  N.eqb c (ch "%") = false /\ N.eqb c (ch "_") = false /\
  N.eqb c (ch "'") = false /\ N.eqb c 92 = false /\ plain p = true.
Proof.
  unfold plain. cbn [existsb]. rewrite negb_orb, andb_true_iff, !negb_orb, !andb_true_iff,
    !negb_true_iff. tauto.
Qed.

(** A pattern made of a plain text and a final [%] matches the texts that
    start with the plain text. *)
Lemma like_plain_prefix (p s : str) :
  plain p = true -> like sch (p ++ [ch "%"]) s = sql_startswith sch s p.
Proof.
  revert s. induction p as [|c p IH]; intros s Hp.
  - rewrite like_percent. destruct s; reflexivity.
  - apply plain_cons in Hp. destruct Hp as (H1 & H2 & _ & _ & Hp).
    cbn [app like sql_startswith]. rewrite H1, H2. cbn [orb].
    destruct s as [|x s]; [reflexivity|]. rewrite IH by exact Hp. reflexivity.
Qed.

Lemma plain_in (p : str) (c : char) :
  plain p = true -> In c p -> N.eqb c (ch "'") || N.eqb c 92 = false.
Proof.
  induction p as [|x p IH]; intros Hp Hin; [destruct Hin|].
  apply plain_cons in Hp. destruct Hp as (_ & _ & H3 & H4 & Hp).
  destruct Hin as [-> | Hin]; [rewrite H3, H4; reflexivity | auto].
Qed.

Lemma quoted_plain (p : str) : plain p = true -> quoted (p ++ py "%") = Some (p ++ py "%").
Proof.
  intros Hp. unfold quoted.
  destruct (existsb _ (p ++ py "%")) eqn:E; [exfalso | reflexivity].
  rewrite existsb_app in E. apply orb_true_iff in E. destruct E as [E|E].
  - apply existsb_exists in E. destruct E as (c & Hin & Hc).
    rewrite (plain_in p c Hp Hin) in Hc. discriminate.
  - cbn in E. discriminate.
Qed.

Lemma sql_startswith_binary (s p : str) :
  binary sch -> sql_startswith sch s p = startswith s p.
Proof.
  intros Hb. revert s. induction p as [|c p IH]; intros [|x s]; cbn; try reflexivity.
  rewrite !Hb, IH. reflexivity.
Qed.

(** What the search query returns for a plain search text: the rows whose
    [Student] starts with it as the collation compares, in ascending order
    of [Student]. *)
Lemma search_query_plain (p : str) :
  p <> [] -> plain p = true ->
  exists q,
    search_query sch p = Some q /\
    forall db,
      Permutation (q db)
        (filter (fun r => sql_startswith sch (Student r) p) (vw_StudentServiceTracker sch db)) /\
      StronglySorted (fun r1 r2 => sql_leb sch (Student r1) (Student r2) = true) (q db).
Proof.
  intros Hne Hp. unfold search_query. destruct p as [|c p]; [congruence|].
  rewrite (quoted_plain (c :: p) Hp). eexists. split; [reflexivity|].
  intros db. split.
  - rewrite sort_by_perm.
    erewrite filter_ext; [reflexivity|].
    intros r. cbn beta. apply (like_plain_prefix (c :: p) (Student r) Hp).
  - apply sort_by_sorted.
    + intros r1 r2. apply sql_leb_total.
    + intros r1 r2 r3. apply sql_leb_trans.
Qed.

End SearchFacts.

(** C3, as the claim states it, fails: [_] in the search text is the
    wildcard of [LIKE], so a search for ["_"] returns the rows of students
    whose names do not start with an underscore. *)
Lemma search_underscore_is_a_wildcard :
  let result :=
    run_page (binary_schema OnDeleteCascade) ascii_tables (searching (py "_")) [] sample_db in
  exists rows r,
    page (snd result) = [SearchHint; SearchResults rows] /\
    In r rows /\ Student r = py "Alice" /\ startswith (Student r) (py "_") = false.
Proof.
  cbv zeta. eexists. eexists. split; [reflexivity|].
  split; [left; reflexivity|]. split; reflexivity.
Qed.

(** C3, amended. Under a case-sensitive collation and when no request
    fails: for a search text that is not empty and holds no [%], [_], quote
    or backslash, Search & Manage displays exactly the rows of the tracker
    view whose [Student] starts with the text (each as often as the view
    has it), in ascending order of [Student]; for the empty search text it
    displays the rows of the view as the view gives them. *)
Theorem search_displays_prefix_matches
    (sch : schema) (U : unicode) (inp : inputs) (db : database) :
  binary sch ->
  choice inp = SearchManage ->
  clicked inp <> RefreshSystem ->
  let view := vw_StudentServiceTracker sch db in
  let p := search_text inp in
  (p <> [] -> plain p = true ->
   exists rows,
     run_page sch U inp [] db =
       (Returned tt, {| stored := db; session := db; faults := [];
                        page := [SearchHint; SearchResults rows] |}) /\
     Permutation rows (filter (fun r => startswith (Student r) p) view) /\
     StronglySorted (fun r1 r2 => sql_leb sch (Student r1) (Student r2) = true) rows) /\
  (p = [] ->
   run_page sch U inp [] db =
     (Returned tt, {| stored := db; session := db; faults := [];
                      page := [SearchHint; SearchResults view] |})).
Proof.
  intros Hbin Hc Hb. cbv zeta.
  assert (Hr : pressed inp RefreshSystem = false)
    by (unfold pressed; destruct (clicked inp); try reflexivity; congruence).
  split.
  - intros Hne Hp.
    destruct (search_query_plain sch (search_text inp) Hne Hp) as (q & Hq & Hspec).
    exists (q db). destruct (Hspec db) as [Hperm Hsorted].
    split; [|split].
    + unfold run_page, main, search_and_manage. rewrite Hr, Hc. cbv zeta. rewrite Hq.
      calm. reflexivity.
    + rewrite Hperm. erewrite filter_ext; [reflexivity|].
      intros r. apply sql_startswith_binary. exact Hbin.
    + exact Hsorted.
  - intros Hp. unfold run_page, main, search_and_manage. rewrite Hr, Hc, Hp.
    calm. reflexivity.
Qed.

Lemma search_displays_prefix_matches_witness :
  let sch := binary_schema OnDeleteCascade in
  let inp := searching (py "A") in
  let view := tracker_join sample_db in
  (py "A" <> [] -> plain (py "A") = true ->
   exists rows,
     run_page sch ascii_tables inp [] sample_db =
       (Returned tt, {| stored := sample_db; session := sample_db; faults := [];
                        page := [SearchHint; SearchResults rows] |}) /\
     Permutation rows (filter (fun r => startswith (Student r) (py "A")) view) /\
     StronglySorted (fun r1 r2 => sql_leb sch (Student r1) (Student r2) = true) rows) /\
  (py "A" = [] ->
   run_page sch ascii_tables inp [] sample_db =
     (Returned tt, {| stored := sample_db; session := sample_db; faults := [];
                      page := [SearchHint; SearchResults view] |})).
Proof.
  cbv zeta.
  apply (search_displays_prefix_matches (binary_schema OnDeleteCascade) ascii_tables
           (searching (py "A")) sample_db).
  - intros c. reflexivity.
  - reflexivity.
  - discriminate.
Defined.

(** The search for ["A"] on the sample: the two records of the first Alice. *)
Example search_A :
  page (snd (run_page (binary_schema OnDeleteCascade) ascii_tables (searching (py "A")) []
                      sample_db))
  = [SearchHint;
     SearchResults
       [ {| Student := py "Alice"; Service := py "Tutoring"; Date_Used := march 1;
            other_columns := [] |};
         {| Student := py "Alice"; Service := py "Library"; Date_Used := march 5;
            other_columns := [] |} ]].
Proof. reflexivity. Qed.

(* ================================================================== *)
(** * Errors and empty tables *)

(** C7. A database error raised by the [UPDATE] of Update Email is not
    caught: the run ends with the exception and displays no message. (The
    server answers the connection and the three reads before it, and fails
    the statement.) *)
Theorem update_email_error_propagates :
  let result :=
    run_page (binary_schema OnDeleteCascade) ascii_tables
      (desk UpdateEmailButton DropSpecificService (py "new@mail.com") 0)
      [Answered; Answered; Answered; Answered; ConnectorFails] sample_db in
  fst result = Raised (MySQLError ServerGone) /\
  page (snd result) = [] /\
  stored (snd result) = sample_db.
Proof. cbv zeta. repeat split; reflexivity. Qed.

(** The same for a failed read, on every page: the first query of the
    Dashboard fails and the run ends with the exception, the connector's
    own or pandas'. *)
Lemma dashboard_read_error_propagates
    (sch : schema) (U : unicode) (inp : inputs) (fs : list fault) (db : database) :
  choice inp = Dashboard ->
  clicked inp = NoButton ->
  run_page sch U inp (Answered :: ConnectorFails :: fs) db =
    (Raised (MySQLError ServerGone),
     {| stored := db; session := db; faults := fs; page := [] |}) /\
  run_page sch U inp (Answered :: OtherFails :: fs) db =
    (Raised (PandasDatabaseError ServerGone),
     {| stored := db; session := db; faults := fs; page := [] |}).
Proof.
  intros Hc Hb. unfold run_page, main, dashboard, pressed. rewrite Hc, Hb.
  split; reflexivity.
Qed.

(** Where the script has a [try], the error is caught and displayed: Add
    Student of an id that exists. *)
Example add_student_duplicate_is_caught :
  let inp := {|
    clicked := SaveStudent; choice := RegistrationDesk; search_text := [];
    student_id_text := py "s101"; full_name_text := py "carol jones";
    email_text := py "Carol@X.com";
    log_id_text := []; pick_selected_st := 0; pick_selected_sv := 0; date_val := march 9;
    pick_target_st := 0; new_email_text := [];
    remove_option := DropSpecificService; pick_student_name := 0; pick_log_label := 0;
    pick_student_to_drop := 0; confirm_text := [];
    report := RevenueReport |} in
  let result := run_page (binary_schema OnDeleteCascade) ascii_tables inp [] sample_db in
  fst result = Returned tt /\
  page (snd result) = [ErrorShown DuplicateEntry; DropHint] /\
  stored (snd result) = sample_db.
Proof. cbv zeta. repeat split; reflexivity. Qed.

(** C9. With no student in the table, the Registration Desk in the mode
    "Delete Entire Student Profile" raises [IndexError] as soon as the page
    runs (no button clicked); it has displayed the warning that stands
    above the select box and no message about an empty table. *)
Theorem delete_student_tab_no_students_raises :
  let result :=
    run_page (binary_schema OnDeleteCascade) ascii_tables
      (desk NoButton DeleteEntireStudentProfile [] 0) [] no_students in
  fst result = Raised IndexError /\ page (snd result) = [DeletionWarning].
Proof. cbv zeta. split; reflexivity. Qed.

(** That holds for every schema and every table of services. *)
Lemma delete_tab_needs_a_student
    (sch : schema) (U : unicode) (inp : inputs) (db : database) :
  Students db = [] ->
  choice inp = RegistrationDesk ->
  remove_option inp = DeleteEntireStudentProfile ->
  clicked inp = NoButton ->
  run_page sch U inp [] db =
    (Raised IndexError,
     {| stored := db; session := db; faults := []; page := [DeletionWarning] |}).
Proof.
  intros He Hc Hm Hb.
  unfold run_page, main, registration_desk, tab1, tab2, tab3, tab4, pressed.
  rewrite Hc, Hm, Hb. unfold first_value, values0, select_students. calm.
  rewrite He. reflexivity.
Qed.

(** Log Service and Update Email raise the same exception when their
    button is clicked. *)
Example log_service_no_students_raises :
  fst (run_page (binary_schema OnDeleteCascade) ascii_tables
         (desk ConfirmServiceLog DropSpecificService (py "SS9") 0) [] no_students)
  = Raised IndexError.
Proof. reflexivity. Qed.

Example update_email_no_students_raises :
  fst (run_page (binary_schema OnDeleteCascade) ascii_tables
         (desk UpdateEmailButton DropSpecificService (py "a@b.co") 0) [] no_students)
  = Raised IndexError.
Proof. reflexivity. Qed.

(** Log Service does so too when there is a student and no service. *)
Example log_service_no_services_raises :
  fst (run_page (binary_schema OnDeleteCascade) ascii_tables
         (desk ConfirmServiceLog DropSpecificService (py "SS9") 0) []
         {| Students := [alice]; Services := []; StudentServices := [] |})
  = Raised IndexError.
Proof. reflexivity. Qed.

(** Drop a Service does not raise: it warns that the student [None] has no
    service. *)
Example drop_service_no_students_warns :
  let result :=
    run_page (binary_schema OnDeleteCascade) ascii_tables
      (desk NoButton DropSpecificService [] 0) [] no_students in
  fst result = Returned tt /\ page (snd result) = [DropHint; NotEnrolled None].
Proof. cbv zeta. split; reflexivity. Qed.

(* ================================================================== *)
(** * Writes of the Registration Desk *)

Lemma try_except_inv {A : Type} (body : M A) (handler : db_error -> M A)
    (w w' : world) (o : outcome A) :
  try_except body handler w = (o, w') ->
  (exists e w1, body w = (Raised (MySQLError e), w1) /\ handler e w1 = (o, w')) \/
  (body w = (o, w') /\ forall e, o <> Raised (MySQLError e)).
Proof.
  unfold try_except. destruct (body w) as [[a|[e| | | |]|] w1]; intros E;
    first [ injection E as <- <-; right; split; [reflexivity | discriminate]
          | left; eauto ].
Qed.

Section WriteFacts.

Variable sch : schema.
Variable U : unicode.
Variable inp : inputs.

(** A statement, its commit and the message of success: either nothing is
    committed and the exception of the failed request is raised, or the
    statement as executed on the rows of the session is what is committed. *)
Lemma write_block (s : statement) (m : message) (w w' : world) (o : outcome unit) :
  (cursor_execute sch s ;; conn_commit ;; st m) w = (o, w') ->
  (stored w' = stored w /\ exists e, write_error e /\ o = Raised e) \/
  (o = Returned tt /\ execute sch s (session w) = inr (stored w')).
Proof.
  intros E. apply bind_inv in E.
  destruct E as [([] & w1 & E1 & E) | [(e & E1 & ->) | (E1 & ->)]];
    apply cursor_execute_spec in E1; destruct E1 as (Hs1 & Hp1 & Ho1).
  2: { left. split; [exact Hs1|]. destruct Ho1 as [[Ho1 _] | (e' & He' & Ho1 & _)]; [discriminate|].
       injection Ho1 as ->. eauto. }
  2: { destruct Ho1 as [[Ho1 _] | (e' & He' & Ho1 & _)]; discriminate. }
  destruct Ho1 as [[_ Hex] | (e' & He' & Ho1 & _)]; [|discriminate].
  apply bind_inv in E.
  destruct E as [([] & w2 & E2 & E) | [(e & E2 & ->) | (E2 & ->)]];
    apply conn_commit_spec in E2; destruct E2 as (Hn2 & Hp2 & Ho2).
  2: { left. destruct Ho2 as [[Ho2 _] | (e' & He' & Ho2 & Hs2)]; [discriminate|].
       split; [congruence|]. injection Ho2 as ->. eauto. }
  2: { destruct Ho2 as [[Ho2 _] | (e' & He' & Ho2 & _)]; discriminate. }
  destruct Ho2 as [[_ Hs2] | (e' & He' & Ho2 & _)]; [|discriminate].
  injection E as <- <-. right. split; [reflexivity|]. cbn. rewrite Hs2. exact Hex.
Qed.



End WriteFacts.

(* ================================================================== *)
(** * Which student a tab works on *)

Section TargetFacts.

Variable sch : schema.









End TargetFacts.

Section WriteRuns.

Variable sch : schema.
Variable U : unicode.
Variable inp : inputs.




End WriteRuns.





(** Bob's address is updated; the two Alices keep theirs. *)
Example update_email_of_bob :
  map email
    (Students (stored (snd (run_page (binary_schema OnDeleteCascade) ascii_tables
                              (desk UpdateEmailButton DropSpecificService (py " New@Mail.COM ") 2)
                              [] sample_db))))
  = [py "alice@x.com"; py "al@y.org"; py "new@mail.com"].
Proof. reflexivity. Qed.

(** An address that fails the validation is not written. *)
Example update_email_rejected :
  run_page (binary_schema OnDeleteCascade) ascii_tables
    (desk UpdateEmailButton DeleteEntireStudentProfile (py "new@mail") 2) [] sample_db
  = (Returned tt, {| stored := sample_db; session := sample_db; faults := [];
                     page := [DeletionWarning] |}).
Proof. reflexivity. Qed.

(** The second Alice is picked in each select box; the first Alice is the
    one written to. *)
Example second_alice_picked_update :
  map email
    (Students (stored (snd (run_page (binary_schema OnDeleteCascade) ascii_tables
                              (desk UpdateEmailButton DropSpecificService (py "new@mail.com") 1)
                              [] sample_db))))
  = [py "new@mail.com"; py "al@y.org"; py "bob@x.com"].
Proof. reflexivity. Qed.

Example second_alice_picked_log :
  map (fun l => (student_service_id l, log_student_id l))
    (StudentServices (stored (snd (run_page (binary_schema OnDeleteCascade) ascii_tables
                                     (desk ConfirmServiceLog DropSpecificService (py "ss9") 1)
                                     [] sample_db))))
  = [(py "SS1", py "S101"); (py "SS2", py "S101"); (py "SS3", py "S103"); (py "SS9", py "S101")].
Proof. reflexivity. Qed.

Example second_alice_picked_delete :
  let typed_first :=
    run_page (binary_schema OnDeleteCascade) ascii_tables
      (desk ConfirmPermanentDeletion DeleteEntireStudentProfile (py "S101") 1) [] sample_db in
  let typed_second :=
    run_page (binary_schema OnDeleteCascade) ascii_tables
      (desk ConfirmPermanentDeletion DeleteEntireStudentProfile (py "S102") 1) [] sample_db in
  Students (stored (snd typed_first)) = [alice_too; bob] /\
  page (snd typed_second) = [DeletionWarning; VerificationFailed] /\
  stored (snd typed_second) = sample_db.
Proof. cbv zeta. repeat split; reflexivity. Qed.

(* ================================================================== *)
(** * The run as a whole *)

Section PageRuns.

Variable sch : schema.
Variable U : unicode.
Variable inp : inputs.

(** A run fails to connect (an error message or an exception, nothing
    else), or is a refresh, or runs the workflow of the chosen page on the
    committed rows and closes the connection. *)
Lemma run_page_inv (fs : list fault) (db : database) (o : outcome unit) (w' : world) :
  run_page sch U inp fs db = (o, w') ->
  ((o = Returned tt \/ o = Raised OtherException) /\ stored w' = db /\
   page w' = match o with Returned _ => [ErrorConnecting] | _ => [] end) \/
  (pressed inp RefreshSystem = true /\ o = Raised RerunException /\
   stored w' = db /\ page w' = []) \/
  (pressed inp RefreshSystem = false /\
   exists w0 w1,
     stored w0 = db /\ session w0 = db /\ page w0 = [] /\
     page_body sch U inp w0 = (o, w1) /\
     stored w' = stored w1 /\ page w' = page w1).
Proof.
  intros E. unfold run_page, main in E.
  change (match choice inp with
          | Dashboard => dashboard sch
          | SearchManage => search_and_manage sch inp
          | RegistrationDesk => registration_desk sch U inp
          | ExportReports => export_reports sch inp
          end) with (page_body sch U inp) in E.
  unfold bind at 1 in E. unfold get_db_connection in E.
  destruct (next_fault _) as [fl w0] eqn:Ef.
  apply next_fault_data in Ef. destruct Ef as (Hs & Hn & Hp). cbn in Hs, Hn, Hp.
  destruct fl.
  - right. destruct (pressed inp RefreshSystem) eqn:Hr.
    + left. cbn [ret bind st_rerun raise] in E. unfold bind, st_rerun, raise in E.
      injection E as <- <-. cbn. auto.
    + right. split; [reflexivity|]. cbn [ret bind] in E. unfold bind in E.
      destruct (page_body sch U inp (set_session (stored w0) w0)) as [[[]|e|] w1] eqn:Ed.
      * unfold conn_close in E. injection E as <- <-.
        exists (set_session (stored w0) w0), w1. cbn. repeat split; assumption || reflexivity.
      * injection E as <- <-.
        exists (set_session (stored w0) w0), w1. cbn. repeat split; assumption || reflexivity.
      * injection E as <- <-.
        exists (set_session (stored w0) w0), w1. cbn. repeat split; assumption || reflexivity.
  - cbn in E. unfold ret in E. injection E as <- <-. left. cbn. rewrite Hs, Hp. auto.
  - injection E as <- <-. left. rewrite Hs, Hp. auto.
Qed.

Lemma dashboard_harmless : harmless (dashboard sch).
Proof.
  unfold dashboard. apply harmless_bind; [apply harmless_read_sql|]. intros df_all.
  destruct df_all; [apply harmless_st|].
  apply harmless_bind; [apply harmless_st|]. intros _. apply harmless_st.
Qed.

Lemma search_and_manage_harmless : harmless (search_and_manage sch inp).
Proof.
  unfold search_and_manage. apply harmless_bind; [apply harmless_st|]. intros _.
  cbv zeta. apply harmless_bind; [apply harmless_read_sql|]. intros df. apply harmless_st.
Qed.

Lemma export_reports_harmless : harmless (export_reports sch inp).
Proof.
  unfold export_reports. destruct (report inp);
    (apply harmless_bind; [apply harmless_read_sql|]; intros rows;
     apply harmless_bind; [apply harmless_st|]; intros _; apply harmless_st).
Qed.

Lemma idle_desk_harmless :
  clicked inp = NoButton -> harmless (registration_desk sch U inp).
Proof.
  intros Hb.
  assert (Hp : forall b, pressed inp b = button_eqb NoButton b)
    by (intros b; unfold pressed; rewrite Hb; reflexivity).
  unfold registration_desk.
  apply harmless_bind; [apply quiet_harmless, tab1_quiet; rewrite Hp; reflexivity|]. intros _.
  apply harmless_bind; [apply quiet_harmless, tab2_quiet; rewrite Hp; reflexivity|]. intros _.
  apply harmless_bind; [apply quiet_harmless, tab3_quiet; rewrite Hp; reflexivity|]. intros _.
  apply tab4_harmless; rewrite Hp; reflexivity.
Qed.

End PageRuns.

(** X1. When [connect] fails, the run ends there, whatever page is chosen
    and whatever was typed or clicked: no query or statement is sent and
    nothing is written. If [connect] raised [mysql.connector.Error], the run
    displays the connection error and returns; an exception of any other
    class is not caught and leaves [main], with nothing displayed. *)
Theorem failed_connection_ends_the_run
    (sch : schema) (U : unicode) (inp : inputs) (fs : list fault) (db : database) :
  run_page sch U inp (ConnectorFails :: fs) db =
    (Returned tt,
     {| stored := db; session := db; faults := fs; page := [ErrorConnecting] |}) /\
  run_page sch U inp (OtherFails :: fs) db =
    (Raised OtherException,
     {| stored := db; session := db; faults := fs; page := [] |}).
Proof. split; reflexivity. Qed.

(** X2. A click on Refresh System reruns the page as soon as the
    connection is open: whatever page is chosen, no query or statement is
    sent, nothing is displayed and nothing is written. *)
Theorem refresh_reruns_before_any_query
    (sch : schema) (U : unicode) (inp : inputs) (fs : list fault) (db : database) :
  clicked inp = RefreshSystem ->
  run_page sch U inp (Answered :: fs) db =
    (Raised RerunException, {| stored := db; session := db; faults := fs; page := [] |}).
Proof.
  intros Hb. unfold run_page, main, pressed. rewrite Hb. reflexivity.
Qed.

Lemma refresh_reruns_before_any_query_witness :
  run_page (binary_schema OnDeleteCascade) ascii_tables
    (desk RefreshSystem DeleteEntireStudentProfile (py "S101") 0) [Answered; ConnectorFails] sample_db =
    (Raised RerunException,
     {| stored := sample_db; session := sample_db; faults := [ConnectorFails]; page := [] |}).
Proof.
  apply (refresh_reruns_before_any_query (binary_schema OnDeleteCascade) ascii_tables
           (desk RefreshSystem DeleteEntireStudentProfile (py "S101") 0) [ConnectorFails] sample_db).
  reflexivity.
Defined.

(** X3. The Dashboard and Export Reports never write: whatever requests
    fail, the committed rows after the run are the rows before it. The same
    holds for Search & Manage whenever the run sends a statement the model
    reads (a search text with no quote and no backslash). *)
Theorem reading_pages_never_write
    (sch : schema) (U : unicode) (inp : inputs) (fs : list fault) (db : database) :
  (choice inp = Dashboard \/ choice inp = ExportReports ->
   stored (snd (run_page sch U inp fs db)) = db) /\
  (choice inp = SearchManage ->
   fst (run_page sch U inp fs db) = Unmodelled \/
   stored (snd (run_page sch U inp fs db)) = db).
Proof.
  destruct (run_page sch U inp fs db) as [o w'] eqn:E. cbn [fst snd].
  apply run_page_inv in E.
  destruct E as [(_ & Hs & _) | [(_ & _ & Hs & _) | (_ & w0 & w1 & Hs0 & _ & _ & E & Hs1 & _)]];
    [split; auto | split; auto |].
  unfold page_body in E. split.
  - intros [Hc | Hc]; rewrite Hc in E.
    + apply dashboard_harmless in E. destruct E as [Hs _]. congruence.
    + apply export_reports_harmless in E. destruct E as [Hs _]. congruence.
  - intros Hc. rewrite Hc in E. right.
    apply search_and_manage_harmless in E. destruct E as [Hs _]. congruence.
Qed.

(* ================================================================== *)
(** * The Dashboard *)

Lemma date_leb_total (a b : date) : date_leb a b = false -> date_leb b a = true.
Proof.
  unfold date_leb.
  destruct (N.ltb (year a) (year b)) eqn:E1; [discriminate|].
  destruct (N.ltb (year b) (year a)) eqn:E2; [reflexivity|].
  destruct (N.ltb (month a) (month b)) eqn:E3; [discriminate|].
  destruct (N.ltb (month b) (month a)) eqn:E4; [reflexivity|].
  intros H. apply N.leb_gt in H. apply N.leb_le. lia.
Qed.

Lemma date_leb_trans (a b c : date) :
  date_leb a b = true -> date_leb b c = true -> date_leb a c = true.
Proof.
  unfold date_leb.
  destruct (N.ltb (year a) (year b)) eqn:E1;
    destruct (N.ltb (year b) (year a)) eqn:E2;
    destruct (N.ltb (year b) (year c)) eqn:E3;
    destruct (N.ltb (year c) (year b)) eqn:E4;
    destruct (N.ltb (year a) (year c)) eqn:E5;
    destruct (N.ltb (year c) (year a)) eqn:E6;
    try congruence;
    try (rewrite ?N.ltb_lt, ?N.ltb_ge in *; lia).
  destruct (N.ltb (month a) (month b)) eqn:F1;
    destruct (N.ltb (month b) (month a)) eqn:F2;
    destruct (N.ltb (month b) (month c)) eqn:F3;
    destruct (N.ltb (month c) (month b)) eqn:F4;
    destruct (N.ltb (month a) (month c)) eqn:F5;
    destruct (N.ltb (month c) (month a)) eqn:F6;
    try congruence;
    try (rewrite ?N.ltb_lt, ?N.ltb_ge in *; lia).
  rewrite !N.leb_le. lia.
Qed.

(** A sorted list cut in two: both parts are sorted and the first part
    comes before the second. *)
Lemma sorted_app_inv {A : Type} (R : A -> A -> Prop) (l1 l2 : list A) :
  StronglySorted R (l1 ++ l2) ->
  StronglySorted R l1 /\ (forall x y, In x l1 -> In y l2 -> R x y).
Proof.
  induction l1 as [|a l1 IH]; cbn; intros H.
  - split; [constructor | intros x y []].
  - inversion H as [|b l Hs Hall]; subst.
    destruct (IH Hs) as [Hs1 Hcross].
    rewrite Forall_app in Hall. destruct Hall as [H1 H2].
    split; [constructor; assumption|].
    intros x y [<- | Hx] Hy; [|auto].
    rewrite Forall_forall in H2. auto.
Qed.

(** X5. The Dashboard, when no request fails. On an empty tracker view it
    displays the empty-state message and no chart. Otherwise it displays
    the chart over the whole view and, under Latest Activities, the
    [min 10 n] most recent rows of the view, most recent first: the rows
    displayed are in descending order of [Date_Used], and every row of the
    view left out is no more recent than any row displayed. *)
Theorem dashboard_latest_activities
    (sch : schema) (U : unicode) (inp : inputs) (db : database) :
  choice inp = Dashboard ->
  clicked inp <> RefreshSystem ->
  let view := vw_StudentServiceTracker sch db in
  (view = [] ->
   run_page sch U inp [] db =
     (Returned tt, {| stored := db; session := db; faults := []; page := [NoServiceData] |})) /\
  (view <> [] ->
   exists latest older,
     run_page sch U inp [] db =
       (Returned tt, {| stored := db; session := db; faults := [];
                        page := [UsagePerService view; LatestActivities latest] |}) /\
     Permutation view (latest ++ older) /\
     List.length latest = Nat.min 10 (List.length view) /\
     StronglySorted (fun r1 r2 => date_leb (Date_Used r2) (Date_Used r1) = true) latest /\
     (forall r o, In r latest -> In o older ->
                  date_leb (Date_Used o) (Date_Used r) = true)).
Proof.
  intros Hc Hb. cbv zeta.
  assert (Hr : pressed inp RefreshSystem = false)
    by (unfold pressed; destruct (clicked inp); try reflexivity; congruence).
  split.
  - intros Hv. unfold run_page, main, dashboard. rewrite Hr, Hc. calm. rewrite Hv. reflexivity.
  - intros Hv.
    set (sorted := sort_by (fun r1 r2 => date_leb (Date_Used r2) (Date_Used r1))
                     (vw_StudentServiceTracker sch db)).
    exists (firstn 10 sorted), (skipn 10 sorted).
    assert (Hsorted : StronglySorted (fun r1 r2 => date_leb (Date_Used r2) (Date_Used r1) = true)
                        (firstn 10 sorted ++ skipn 10 sorted)).
    { rewrite firstn_skipn. apply sort_by_sorted.
      - intros r1 r2. apply date_leb_total.
      - intros r1 r2 r3 H1 H2. exact (date_leb_trans _ _ _ H2 H1). }
    apply sorted_app_inv in Hsorted. destruct Hsorted as [Hs Hcross].
    split; [|split; [|split; [|split]]].
    + unfold run_page, main, dashboard. rewrite Hr, Hc. calm.
      destruct (vw_StudentServiceTracker sch db) eqn:Hview; [congruence|]. reflexivity.
    + rewrite firstn_skipn. symmetry. apply sort_by_perm.
    + rewrite length_firstn. f_equal.
      apply Permutation_length. apply sort_by_perm.
    + exact Hs.
    + intros r o Hr' Ho. apply Hcross; assumption.
Qed.

Lemma dashboard_latest_activities_witness :
  let sch := binary_schema OnDeleteCascade in
  let view := tracker_join sample_db in
  (view = [] ->
   run_page sch ascii_tables idle [] sample_db =
     (Returned tt, {| stored := sample_db; session := sample_db; faults := [];
                      page := [NoServiceData] |})) /\
  (view <> [] ->
   exists latest older,
     run_page sch ascii_tables idle [] sample_db =
       (Returned tt, {| stored := sample_db; session := sample_db; faults := [];
                        page := [UsagePerService view; LatestActivities latest] |}) /\
     Permutation view (latest ++ older) /\
     List.length latest = Nat.min 10 (List.length view) /\
     StronglySorted (fun r1 r2 => date_leb (Date_Used r2) (Date_Used r1) = true) latest /\
     (forall r o, In r latest -> In o older ->
                  date_leb (Date_Used o) (Date_Used r) = true)).
Proof.
  cbv zeta.
  apply (dashboard_latest_activities (binary_schema OnDeleteCascade) ascii_tables idle sample_db).
  - reflexivity.
  - discriminate.
Defined.

(* ================================================================== *)
(** * What a piece of the script displays and raises *)

Lemma grows_ret {A : Type} (a : A) : grows (ret a).
Proof. intros w o w' E. injection E as <- <-. exists []. symmetry. apply app_nil_r. Qed.

Lemma grows_raise {A : Type} (e : exn) : grows (@raise A e).
Proof. intros w o w' E. injection E as <- <-. exists []. symmetry. apply app_nil_r. Qed.

Lemma grows_st (m : message) : grows (st m).
Proof. intros w o w' E. injection E as <- <-. exists [m]. reflexivity. Qed.

Lemma grows_read_sql {A : Type} (q : option (database -> A)) : grows (read_sql q).
Proof.
  intros w o w' E. exists []. rewrite app_nil_r. destruct q as [f|].
  - apply read_sql_spec in E. destruct E as [(_ & _ & Hp) _]. exact Hp.
  - injection E as <- <-. reflexivity.
Qed.

Lemma grows_cursor_execute (sch : schema) (s : statement) : grows (cursor_execute sch s).
Proof.
  intros w o w' E. exists []. rewrite app_nil_r.
  apply cursor_execute_spec in E. tauto.
Qed.

Lemma grows_conn_commit : grows conn_commit.
Proof.
  intros w o w' E. exists []. rewrite app_nil_r.
  apply conn_commit_spec in E. tauto.
Qed.

Lemma grows_first_value {R V : Type} (df : list R) (keep : R -> bool) (column : R -> V) :
  grows (first_value df keep column).
Proof.
  unfold first_value. destruct (values0 df keep column); [apply grows_ret | apply grows_raise].
Qed.

Lemma grows_bind {A B : Type} (m : M A) (k : A -> M B) :
  grows m -> (forall a, grows (k a)) -> grows (bind m k).
Proof.
  intros Hm Hk w o w' E. apply bind_inv in E.
  destruct E as [(a & w1 & E1 & E2) | [(e & E1 & ->) | (E1 & ->)]].
  - apply Hm in E1. apply Hk in E2. destruct E1 as [l1 H1], E2 as [l2 H2].
    exists (l1 ++ l2). rewrite H2, H1. symmetry. apply app_assoc.
  - apply Hm in E1. exact E1.
  - apply Hm in E1. exact E1.
Qed.

Lemma grows_try_except {A : Type} (body : M A) (handler : db_error -> M A) :
  grows body -> (forall e, grows (handler e)) -> grows (try_except body handler).
Proof.
  intros Hb Hh w o w' E. apply try_except_inv in E.
  destruct E as [(e & w1 & E1 & E2) | [E _]].
  - apply Hb in E1. apply Hh in E2. destruct E1 as [l1 H1], E2 as [l2 H2].
    exists (l1 ++ l2). rewrite H2, H1. symmetry. apply app_assoc.
  - apply Hb in E. exact E.
Qed.

Lemma nce_ret {A : Type} (a : A) : no_connector_error (ret a).
Proof. intros w o w' E. injection E as <- <-. discriminate. Qed.

Lemma nce_index_error {A : Type} : no_connector_error (@raise A IndexError).
Proof. intros w o w' E. injection E as <- <-. discriminate. Qed.

Lemma nce_rerun : no_connector_error st_rerun.
Proof. intros w o w' E. injection E as <- <-. discriminate. Qed.

Lemma nce_st (m : message) : no_connector_error (st m).
Proof. intros w o w' E. injection E as <- <-. discriminate. Qed.

Lemma nce_first_value {R V : Type} (df : list R) (keep : R -> bool) (column : R -> V) :
  no_connector_error (first_value df keep column).
Proof.
  unfold first_value. destruct (values0 df keep column); [apply nce_ret | apply nce_index_error].
Qed.

Lemma nce_bind {A B : Type} (m : M A) (k : A -> M B) :
  no_connector_error m -> (forall a, no_connector_error (k a)) -> no_connector_error (bind m k).
Proof.
  intros Hm Hk w o w' E. apply bind_inv in E.
  destruct E as [(a & w1 & E1 & E2) | [(e & E1 & ->) | (E1 & ->)]].
  - exact (Hk _ _ _ _ E2).
  - intros e' He'. injection He' as ->. exact (Hm _ _ _ E1 e' eq_refl).
  - discriminate.
Qed.

(** A [try] whose handler raises no connector error lets none out,
    whatever its body does. *)
Lemma nce_try_except {A : Type} (body : M A) (handler : db_error -> M A) :
  (forall e, no_connector_error (handler e)) -> no_connector_error (try_except body handler).
Proof.
  intros Hh w o w' E. apply try_except_inv in E.
  destruct E as [(e & w1 & _ & E2) | [_ Hne]].
  - exact (Hh _ _ _ _ E2).
  - exact Hne.
Qed.

Lemma modelled_ret {A : Type} (a : A) : modelled (ret a).
Proof. intros w o w' E. injection E as <- <-. discriminate. Qed.

Lemma modelled_raise {A : Type} (e : exn) : modelled (@raise A e).
Proof. intros w o w' E. injection E as <- <-. discriminate. Qed.

Lemma modelled_st (m : message) : modelled (st m).
Proof. intros w o w' E. injection E as <- <-. discriminate. Qed.

Lemma modelled_read_sql {A : Type} (f : database -> A) : modelled (read_sql (Some f)).
Proof.
  intros w o w' E. apply read_sql_spec in E.
  destruct E as [_ [(e & _ & ->) | ->]]; discriminate.
Qed.

Lemma modelled_cursor_execute (sch : schema) (s : statement) : modelled (cursor_execute sch s).
Proof.
  intros w o w' E. apply cursor_execute_spec in E.
  destruct E as (_ & _ & [[-> _] | (e & _ & -> & _)]); discriminate.
Qed.

Lemma modelled_conn_commit : modelled conn_commit.
Proof.
  intros w o w' E. apply conn_commit_spec in E.
  destruct E as (_ & _ & [[-> _] | (e & _ & -> & _)]); discriminate.
Qed.

Lemma modelled_first_value {R V : Type} (df : list R) (keep : R -> bool) (column : R -> V) :
  modelled (first_value df keep column).
Proof.
  unfold first_value. destruct (values0 df keep column);
    [apply modelled_ret | apply modelled_raise].
Qed.

Lemma modelled_bind {A B : Type} (m : M A) (k : A -> M B) :
  modelled m -> (forall a, modelled (k a)) -> modelled (bind m k).
Proof.
  intros Hm Hk w o w' E. apply bind_inv in E.
  destruct E as [(a & w1 & E1 & E2) | [(e & E1 & ->) | (E1 & ->)]].
  - exact (Hk _ _ _ _ E2).
  - discriminate.
  - exfalso. exact (Hm _ _ _ E1 eq_refl).
Qed.

Lemma modelled_try_except {A : Type} (body : M A) (handler : db_error -> M A) :
  modelled body -> (forall e, modelled (handler e)) -> modelled (try_except body handler).
Proof.
  intros Hb Hh w o w' E. apply try_except_inv in E.
  destruct E as [(e & w1 & _ & E2) | [E _]].
  - exact (Hh _ _ _ _ E2).
  - exact (Hb _ _ _ E).
Qed.

Create HintDb script.

#[local] Hint Resolve grows_ret grows_raise grows_st grows_read_sql grows_cursor_execute
  grows_conn_commit grows_first_value grows_bind grows_try_except : script.
#[local] Hint Resolve nce_ret nce_index_error nce_rerun nce_st nce_first_value
  nce_bind nce_try_except : script.
#[local] Hint Resolve modelled_ret modelled_raise modelled_st modelled_read_sql
  modelled_cursor_execute modelled_conn_commit modelled_first_value modelled_bind
  modelled_try_except : script.
#[local] Hint Extern 1 (modelled _) => progress cbv beta zeta : script.
#[local] Hint Extern 3 (modelled (if ?b then _ else _)) => destruct b : script.
#[local] Hint Extern 3 (modelled (match ?x with _ => _ end)) => destruct x : script.
#[local] Hint Extern 1 (grows _) => progress cbv beta zeta : script.
#[local] Hint Extern 1 (no_connector_error _) => progress cbv beta zeta : script.
#[local] Hint Extern 3 (grows (if ?b then _ else _)) => destruct b : script.
#[local] Hint Extern 3 (grows (match ?x with _ => _ end)) => destruct x : script.
#[local] Hint Extern 3 (no_connector_error (if ?b then _ else _)) => destruct b : script.
#[local] Hint Extern 3 (no_connector_error (match ?x with _ => _ end)) => destruct x : script.
#[local] Hint Unfold st_rerun : script.

Section TabFacts.

Variable sch : schema.
Variable U : unicode.
Variable inp : inputs.

(** Every tab only adds to the page, whatever was clicked. *)
Lemma tab2_grows : grows (tab2 sch U inp).
Proof. unfold tab2. auto 30 with script. Qed.

Lemma tab3_grows : grows (tab3 sch U inp).
Proof. unfold tab3. auto 30 with script. Qed.

Lemma tab4_grows : grows (tab4 sch U inp).
Proof. unfold tab4, st_rerun. auto 40 with script. Qed.

Lemma after_tab1_grows : grows (tab2 sch U inp ;; tab3 sch U inp ;; tab4 sch U inp).
Proof.
  apply grows_bind; [apply tab2_grows|]. intros _.
  apply grows_bind; [apply tab3_grows|]. intros _. apply tab4_grows.
Qed.

Lemma after_tab2_grows : grows (tab3 sch U inp ;; tab4 sch U inp).
Proof. apply grows_bind; [apply tab3_grows|]. intros _. apply tab4_grows. Qed.

(** The first tab lets no connector error out, whatever was clicked: its
    statements stand in a [try]. So does the form of the second tab, once
    the two tables are read. *)
Lemma tab1_no_connector_error : no_connector_error (tab1 sch U inp).
Proof. unfold tab1. auto 30 with script. Qed.

Lemma service_log_form_no_connector_error (st_df sv_df : list (str * str)) :
  no_connector_error
    (let log_id := upper U (strip U (log_id_text inp)) in
     let selected_st := selectbox (map snd st_df) (pick_selected_st inp) in
     let selected_sv := selectbox (map snd sv_df) (pick_selected_sv inp) in
     if pressed inp ConfirmServiceLog then
       s_id <- first_value st_df (fun r => is_selected selected_st (snd r)) fst ;;
       v_id <- first_value sv_df (fun r => is_selected selected_sv (snd r)) fst ;;
       try_except
         (cursor_execute sch (InsertStudentService log_id s_id v_id (date_val inp)) ;;
          conn_commit ;;
          st (ServiceRegistered selected_sv selected_st))
         (fun e => st (ErrorShown e))
     else ret tt).
Proof. auto 30 with script. Qed.

Lemma quoted_some (text : str) : quotable text = true -> quoted text = Some text.
Proof.
  unfold quotable, quoted. intros H. apply negb_true_iff in H. rewrite H. reflexivity.
Qed.

(** The last tab sends only statements the model reads when, under Drop a
    Specific Service, the selected name holds no quote and no backslash. *)
Lemma tab4_modelled (w w' : world) (o : outcome unit) :
  (remove_option inp = DropSpecificService -> selected_name_quotable (session w) inp = true) ->
  tab4 sch U inp w = (o, w') -> o <> Unmodelled.
Proof.
  intros Hq E. unfold tab4 in E. apply bind_inv in E.
  destruct E as [(st_list & w1 & E1 & E) | [(e & E1 & ->) | (E1 & ->)]];
    [| discriminate | exfalso; exact (modelled_read_sql _ _ _ _ E1 eq_refl)].
  apply read_sql_spec in E1. destruct E1 as [_ [(e & _ & Ho) | Ho]]; [discriminate|].
  injection Ho as ->.
  destruct (remove_option inp).
  - specialize (Hq eq_refl). unfold selected_name_quotable in Hq.
    cbv zeta in E. unfold logs_query in E. rewrite (quoted_some _ Hq) in E.
    revert E. generalize w1 o w'.
    change (modelled
      (st DropHint ;;
       logs_df <- read_sql (Some (fun db =>
         flat_map (fun ss =>
           flat_map (fun s =>
             if sql_eqb sch (log_student_id ss) (student_id s) then
               flat_map (fun ser =>
                 if sql_eqb sch (log_service_id ss) (service_id ser) &&
                    sql_eqb sch (name s)
                      (format_opt (selectbox (map snd (select_students (session w)))
                                             (pick_student_name inp)))
                 then [{| lr_student_service_id := student_service_id ss;
                          lr_service_name := service_name ser;
                          lr_service_date := service_date ss |}]
                 else [])
                 (Services db)
             else [])
             (Students db))
           (StudentServices db))) ;;
       match logs_df with
       | _ :: _ =>
           if pressed inp DropSelectedService then
             log_id <- first_value logs_df
                         (fun r => is_selected (selectbox (map label logs_df) (pick_log_label inp))
                                     (label r))
                         lr_student_service_id ;;
             cursor_execute sch (DeleteStudentService log_id) ;;
             conn_commit ;;
             st (ServiceRemoved (selectbox (map label logs_df) (pick_log_label inp))
                   (selectbox (map snd (select_students (session w))) (pick_student_name inp))) ;;
             st_rerun
           else ret tt
       | [] => st (NotEnrolled (selectbox (map snd (select_students (session w)))
                                  (pick_student_name inp)))
       end)).
    unfold st_rerun. auto 40 with script.
  - revert E. generalize w1 o w'.
    change (modelled
      (st DeletionWarning ;;
       expected_id <- first_value (select_students (session w))
                        (fun r => is_selected
                                    (selectbox (map snd (select_students (session w)))
                                               (pick_student_to_drop inp)) (snd r)) fst ;;
       if pressed inp ConfirmPermanentDeletion then
         if str_eqb (upper U (strip U (confirm_text inp))) expected_id then
           cursor_execute sch (DeleteStudent (upper U (strip U (confirm_text inp)))) ;;
           conn_commit ;;
           st (RecordWiped (selectbox (map snd (select_students (session w)))
                                      (pick_student_to_drop inp))) ;;
           st_rerun
         else st VerificationFailed
       else ret tt)).
    unfold st_rerun. auto 40 with script.
Qed.

(** A run of the Registration Desk in which no button of the first three
    tabs was clicked sends only statements the model reads, under the same
    condition on the selected name. *)
Lemma desk_run_modelled (fs : list fault) (db : database) :
  choice inp = RegistrationDesk ->
  pressed inp RefreshSystem = false ->
  pressed inp SaveStudent = false ->
  pressed inp ConfirmServiceLog = false ->
  pressed inp UpdateEmailButton = false ->
  (remove_option inp = DropSpecificService -> selected_name_quotable db inp = true) ->
  fst (run_page sch U inp fs db) <> Unmodelled.
Proof.
  intros Hc Hr H1 H2 H3 Hq.
  destruct (run_page sch U inp fs db) as [o w'] eqn:E. cbn [fst].
  apply run_page_desk in E; [| exact Hr | exact Hc].
  destruct E as [([-> | ->] & _) | (w0 & w1 & _ & Hn0 & _ & E & _)]; try discriminate.
  apply desk_reaches_tab4 in E; try assumption.
  destruct E as [[_ (e & _ & ->)] | (w2 & (_ & Hn2 & _) & E)]; [discriminate|].
  apply tab4_modelled in E; [exact E|]. rewrite Hn2, Hn0. exact Hq.
Qed.

(** How a read goes is what the list of faults says of the next request. *)
Lemma read_sql_fault {A : Type} (f : database -> A) (w w' : world) (o : outcome A) :
  read_sql (Some f) w = (o, w') ->
  faults w' = tl (faults w) /\
  match nth 0 (faults w) Answered with
  | Answered => o = Returned (f (session w))
  | ConnectorFails => o = Raised (MySQLError ServerGone)
  | OtherFails => o = Raised (PandasDatabaseError ServerGone)
  end.
Proof.
  unfold read_sql, next_fault. destruct w as [sd ss fl pg]. cbn [faults session].
  destruct fl as [|[] fs]; intros H; injection H as <- <-; cbn; auto.
Qed.

End TabFacts.

(* ================================================================== *)
(** * The Registration Desk without a click *)

(** X4. Opening the Registration Desk without clicking a button writes
    nothing, whatever is typed or picked and whatever requests fail. (Under
    Drop a Specific Service the selected student name is taken to hold no
    quote and no backslash: the run then sends only statements the model
    reads.) *)
Theorem registration_desk_writes_only_on_click
    (sch : schema) (U : unicode) (inp : inputs) (fs : list fault) (db : database) :
  choice inp = RegistrationDesk ->
  clicked inp = NoButton ->
  (remove_option inp = DropSpecificService -> selected_name_quotable db inp = true) ->
  fst (run_page sch U inp fs db) <> Unmodelled /\
  stored (snd (run_page sch U inp fs db)) = db.
Proof.
  intros Hc Hb Hq.
  assert (Hp : forall b, pressed inp b = button_eqb NoButton b)
    by (intros b; unfold pressed; rewrite Hb; reflexivity).
  split.
  - apply desk_run_modelled; try exact Hc; try exact Hq; rewrite Hp; reflexivity.
  - destruct (run_page sch U inp fs db) as [o w'] eqn:E. cbn [snd].
    apply run_page_inv in E.
    destruct E as [(_ & Hs & _) | [(_ & _ & Hs & _) | (_ & w0 & w1 & Hs0 & _ & _ & E & Hs1 & _)]];
      auto.
    unfold page_body in E. rewrite Hc in E.
    apply idle_desk_harmless in E; [|exact Hb]. destruct E as [Hs _]. congruence.
Qed.

Lemma registration_desk_writes_only_on_click_witness :
  let r := run_page (binary_schema OnDeleteCascade) ascii_tables
             (desk NoButton DropSpecificService (py "S101") 0)
             [Answered; Answered; ConnectorFails] sample_db in
  fst r <> Unmodelled /\ stored (snd r) = sample_db.
Proof.
  cbv zeta.
  apply (registration_desk_writes_only_on_click (binary_schema OnDeleteCascade) ascii_tables
           (desk NoButton DropSpecificService (py "S101") 0)
           [Answered; Answered; ConnectorFails] sample_db); reflexivity.
Defined.

(* ================================================================== *)
(** * Add New Student *)

Section AddStudent.

Variable sch : schema.
Variable U : unicode.
Variable inp : inputs.

Lemma insert_student_rows (db db' : database) (s : StudentRow) :
  execute sch (InsertStudent (student_id s) (name s) (email s)) db = inr db' ->
  has_student sch db (student_id s) = false /\ db' = with_student db s.
Proof.
  cbn [execute]. destruct (has_student sch db (student_id s)); [discriminate|].
  intros E. injection E as <-. destruct s. auto.
Qed.

(** Save Student, clicked: the tab ends normally, or with an exception
    that is no connector error; either nothing is committed, or both
    validators accepted and the [INSERT] of the normalised row is
    committed. *)
Lemma tab1_save_spec (w w' : world) (o : outcome unit) :
  pressed inp SaveStudent = true ->
  session w = stored w ->
  tab1 sch U inp w = (o, w') ->
  (o = Returned tt \/ o = Raised OtherException) /\
  (stored w' = stored w \/
   (validate_id U (student_id (new_student U inp)) <> None /\
    validate_email U (email (new_student U inp)) <> None /\
    has_student sch (stored w) (student_id (new_student U inp)) = false /\
    stored w' = with_student (stored w) (new_student U inp))).
Proof.
  intros Hpress Hsess E. unfold tab1 in E. cbv zeta in E. rewrite Hpress in E.
  cbn [new_student student_id email].
  destruct (validate_id U (upper U (strip U (student_id_text inp)))) as [m1|] eqn:Hv1;
    cbn [truthy negb] in E.
  2: { injection E as <- <-. auto. }
  destruct (validate_email U (lower U (strip U (email_text inp)))) as [m2|] eqn:Hv2;
    cbn [truthy negb] in E.
  2: { injection E as <- <-. auto. }
  apply try_except_inv in E.
  destruct E as [(e & w1 & E1 & E) | [E Hne]].
  - injection E as <- <-. split; [left; reflexivity|]. left. cbn.
    apply write_block in E1. destruct E1 as [[Hs _] | [Ho _]]; [exact Hs | discriminate].
  - apply write_block in E. destruct E as [[Hs (e & He & ->)] | [-> Hex]].
    + split; [|left; exact Hs]. right.
      destruct He as [(d & ->) | ->]; [exfalso; exact (Hne d eq_refl) | reflexivity].
    + split; [left; reflexivity|]. right.
      rewrite Hsess in Hex.
      apply (insert_student_rows (stored w) (stored w') (new_student U inp)) in Hex.
      destruct Hex as [Hno ->]. repeat split; auto; discriminate.
Qed.

End AddStudent.

(** X6. Add New Student never stores a row that fails the validators.
    Whatever requests fail, after a click on Save Student the tables are as
    they were, or differ in exactly one new row of [Students]: the id typed
    (stripped, in upper case), the name (stripped, in title case) and the
    email (stripped, in lower case); then [validate_id] accepted that id,
    [validate_email] accepted that email, and no student had the id. *)
Theorem add_student_stores_only_valid_rows
    (sch : schema) (U : unicode) (inp : inputs) (fs : list fault) (db : database) :
  choice inp = RegistrationDesk ->
  clicked inp = SaveStudent ->
  let after := stored (snd (run_page sch U inp fs db)) in
  after = db \/
  (validate_id U (student_id (new_student U inp)) <> None /\
   validate_email U (email (new_student U inp)) <> None /\
   has_student sch db (student_id (new_student U inp)) = false /\
   after = with_student db (new_student U inp)).
Proof.
  intros Hc Hb. cbv zeta.
  assert (Hp : forall b, pressed inp b = button_eqb SaveStudent b)
    by (intros b; unfold pressed; rewrite Hb; reflexivity).
  destruct (run_page sch U inp fs db) as [o w'] eqn:E. cbn [snd].
  apply run_page_inv in E.
  destruct E as [(_ & Hs & _) | [(_ & _ & Hs & _) | (_ & w0 & w1 & Hs0 & Hn0 & _ & E & Hs1 & _)]];
    auto.
  rewrite Hs1. clear Hs1 w'.
  unfold page_body in E. rewrite Hc in E. unfold registration_desk in E.
  assert (Hsess : session w0 = stored w0) by congruence.
  apply bind_inv in E.
  destruct E as [([] & v1 & E1 & E) | [(e & E1 & ->) | (E1 & ->)]];
    apply tab1_save_spec in E1; try (rewrite Hp; reflexivity); try exact Hsess;
    destruct E1 as [Ho Hst]; try (rewrite <- Hs0; exact Hst).
  assert (Hrest : harmless (tab2 sch U inp ;; tab3 sch U inp ;; tab4 sch U inp)).
  { apply harmless_bind; [apply quiet_harmless, tab2_quiet; rewrite Hp; reflexivity|]. intros _.
    apply harmless_bind; [apply quiet_harmless, tab3_quiet; rewrite Hp; reflexivity|]. intros _.
    apply tab4_harmless; rewrite Hp; reflexivity. }
  apply Hrest in E. destruct E as [Hs _]. rewrite Hs, <- Hs0. exact Hst.
Qed.

Lemma add_student_stores_only_valid_rows_witness :
  let sch := binary_schema OnDeleteCascade in
  let inp := enrolling (py " s104 ") (py "carol jones") (py "Carol@X.org ") in
  let after := stored (snd (run_page sch ascii_tables inp [] sample_db)) in
  after = sample_db \/
  (validate_id ascii_tables (student_id (new_student ascii_tables inp)) <> None /\
   validate_email ascii_tables (email (new_student ascii_tables inp)) <> None /\
   has_student sch sample_db (student_id (new_student ascii_tables inp)) = false /\
   after = with_student sample_db (new_student ascii_tables inp)).
Proof.
  cbv zeta.
  apply (add_student_stores_only_valid_rows (binary_schema OnDeleteCascade) ascii_tables
           (enrolling (py " s104 ") (py "carol jones") (py "Carol@X.org ")) [] sample_db);
    reflexivity.
Defined.

(** A run in which no request fails and Refresh was not clicked is the
    workflow of the page on the committed rows, then [conn.close()]. *)
Lemma run_page_calm (sch : schema) (U : unicode) (inp : inputs) (db : database) :
  pressed inp RefreshSystem = false ->
  run_page sch U inp [] db =
    (page_body sch U inp ;; conn_close)
      {| stored := db; session := db; faults := []; page := [] |}.
Proof.
  intros Hr. unfold run_page, main, page_body. rewrite Hr. reflexivity.
Qed.

(** A step of a sequence that ends normally hands over to the rest. *)
Lemma bind_step {A B C : Type} (m : M A) (k : A -> M B) (k' : B -> M C)
    (w w1 : world) (a : A) :
  m w = (Returned a, w1) -> bind (bind m k) k' w = bind (k a) k' w1.
Proof. intros E. unfold bind. rewrite E. reflexivity. Qed.

(** After the tab of the button clicked, the later tabs and the closing of
    the connection add to the page and write nothing. *)
Lemma later_tabs_keep (m : M unit) (w1 : world) (first : message) (l : list message) :
  grows m -> harmless m ->
  page w1 = first :: l ->
  hd_error (page (snd ((m ;; conn_close) w1))) = Some first /\
  stored (snd ((m ;; conn_close) w1)) = stored w1.
Proof.
  intros Hg Hh Hp. unfold bind.
  destruct (m w1) as [o w2] eqn:E.
  destruct (Hg _ _ _ E) as [l' Hl]. destruct (Hh _ _ _ E) as [Hs _].
  destruct o as [[]| |]; cbn; rewrite ?Hl, Hp; auto.
Qed.

(** Save Student, clicked, when no request fails. *)
Lemma tab1_reports (sch : schema) (U : unicode) (inp : inputs) (w : world) :
  pressed inp SaveStudent = true ->
  faults w = [] ->
  let s := new_student U inp in
  exists w1,
    tab1 sch U inp w = (Returned tt, w1) /\
    (validate_id U (student_id s) = None -> w1 = add_message IdFormatError w) /\
    (validate_id U (student_id s) <> None -> validate_email U (email s) = None ->
     w1 = add_message InvalidEmailFormat w) /\
    (validate_id U (student_id s) <> None -> validate_email U (email s) <> None ->
     has_student sch (session w) (student_id s) = true ->
     w1 = add_message (ErrorShown DuplicateEntry) w) /\
    (validate_id U (student_id s) <> None -> validate_email U (email s) <> None ->
     has_student sch (session w) (student_id s) = false ->
     w1 = {| stored := with_student (session w) s; session := with_student (session w) s;
             faults := []; page := page w ++ [StudentAdded (name s)] |}).
Proof.
  intros Hpress Hf. cbv zeta. destruct w as [sd ss fl pg]. cbn in Hf. subst fl.
  unfold tab1. cbv zeta. rewrite Hpress.
  cbn [new_student student_id email name session page].
  destruct (validate_id U (upper U (strip U (student_id_text inp)))) as [m1|] eqn:Hv1;
    cbn [truthy negb].
  2: { eexists. split; [reflexivity|]. repeat split; intros; congruence. }
  destruct (validate_email U (lower U (strip U (email_text inp)))) as [m2|] eqn:Hv2;
    cbn [truthy negb].
  2: { eexists. split; [reflexivity|]. repeat split; intros; congruence. }
  unfold try_except, bind, cursor_execute, conn_commit, next_fault, st.
  cbn [faults session execute].
  destruct (has_student sch ss (upper U (strip U (student_id_text inp)))) eqn:Hh.
  - eexists. split; [reflexivity|]. repeat split; intros; congruence.
  - eexists. split; [reflexivity|]. repeat split; intros; congruence || reflexivity.
Qed.

(** X7. What Add New Student reports, when no request fails. The first
    message of the page is: the ID format error when [validate_id] rejects
    the id (whatever the email is); else the email format error when
    [validate_email] rejects the email; else the database's duplicate-entry
    error when a student has the id; else the success message. The row is
    stored in the last case only. *)
Theorem add_student_reports
    (sch : schema) (U : unicode) (inp : inputs) (db : database) :
  choice inp = RegistrationDesk ->
  clicked inp = SaveStudent ->
  let s := new_student U inp in
  let result := snd (run_page sch U inp [] db) in
  (validate_id U (student_id s) = None ->
   hd_error (page result) = Some IdFormatError /\ stored result = db) /\
  (validate_id U (student_id s) <> None -> validate_email U (email s) = None ->
   hd_error (page result) = Some InvalidEmailFormat /\ stored result = db) /\
  (validate_id U (student_id s) <> None -> validate_email U (email s) <> None ->
   has_student sch db (student_id s) = true ->
   hd_error (page result) = Some (ErrorShown DuplicateEntry) /\ stored result = db) /\
  (validate_id U (student_id s) <> None -> validate_email U (email s) <> None ->
   has_student sch db (student_id s) = false ->
   hd_error (page result) = Some (StudentAdded (name s)) /\ stored result = with_student db s).
Proof.
  intros Hc Hb. cbv zeta.
  assert (Hp : forall b, pressed inp b = button_eqb SaveStudent b)
    by (intros b; unfold pressed; rewrite Hb; reflexivity).
  rewrite run_page_calm by (rewrite Hp; reflexivity).
  unfold page_body. rewrite Hc. unfold registration_desk.
  set (w0 := {| stored := db; session := db; faults := []; page := [] |}).
  destruct (tab1_reports sch U inp w0 ltac:(rewrite Hp; reflexivity) eq_refl)
    as (w1 & E1 & H1 & H2 & H3 & H4).
  cbv zeta in H1, H2, H3, H4.
  assert (Hg : grows (tab2 sch U inp ;; tab3 sch U inp ;; tab4 sch U inp))
    by apply after_tab1_grows.
  assert (Hh : harmless (tab2 sch U inp ;; tab3 sch U inp ;; tab4 sch U inp)).
  { apply harmless_bind; [apply quiet_harmless, tab2_quiet; rewrite Hp; reflexivity|]. intros _.
    apply harmless_bind; [apply quiet_harmless, tab3_quiet; rewrite Hp; reflexivity|]. intros _.
    apply tab4_harmless; rewrite Hp; reflexivity. }
  assert (Hrun : ((tab1 sch U inp ;; tab2 sch U inp ;; tab3 sch U inp ;; tab4 sch U inp) ;;
                  conn_close) w0
                 = ((tab2 sch U inp ;; tab3 sch U inp ;; tab4 sch U inp) ;; conn_close) w1).
  { unfold bind at 1 2. unfold bind at 5. rewrite E1. reflexivity. }
  rewrite Hrun.
  repeat split; intros.
  - rewrite (H1 ltac:(assumption)).
    apply (later_tabs_keep _ (add_message IdFormatError w0) IdFormatError [] Hg Hh eq_refl).
  - rewrite (H1 ltac:(assumption)).
    apply (later_tabs_keep _ (add_message IdFormatError w0) IdFormatError [] Hg Hh eq_refl).
  - rewrite (H2 ltac:(assumption) ltac:(assumption)).
    apply (later_tabs_keep _ (add_message InvalidEmailFormat w0) InvalidEmailFormat [] Hg Hh
             eq_refl).
  - rewrite (H2 ltac:(assumption) ltac:(assumption)).
    apply (later_tabs_keep _ (add_message InvalidEmailFormat w0) InvalidEmailFormat [] Hg Hh
             eq_refl).
  - rewrite (H3 ltac:(assumption) ltac:(assumption) ltac:(assumption)).
    apply (later_tabs_keep _ (add_message (ErrorShown DuplicateEntry) w0)
             (ErrorShown DuplicateEntry) [] Hg Hh eq_refl).
  - rewrite (H3 ltac:(assumption) ltac:(assumption) ltac:(assumption)).
    apply (later_tabs_keep _ (add_message (ErrorShown DuplicateEntry) w0)
             (ErrorShown DuplicateEntry) [] Hg Hh eq_refl).
  - rewrite (H4 ltac:(assumption) ltac:(assumption) ltac:(assumption)).
    apply (later_tabs_keep _
             {| stored := with_student db (new_student U inp);
                session := with_student db (new_student U inp);
                faults := []; page := [StudentAdded (name (new_student U inp))] |}
             (StudentAdded (name (new_student U inp))) [] Hg Hh eq_refl).
  - rewrite (H4 ltac:(assumption) ltac:(assumption) ltac:(assumption)).
    apply (later_tabs_keep _
             {| stored := with_student db (new_student U inp);
                session := with_student db (new_student U inp);
                faults := []; page := [StudentAdded (name (new_student U inp))] |}
             (StudentAdded (name (new_student U inp))) [] Hg Hh eq_refl).
Qed.

Lemma add_student_reports_witness :
  let sch := binary_schema OnDeleteCascade in
  let inp := enrolling (py " s104 ") (py "carol jones") (py "Carol@X.org ") in
  let s := new_student ascii_tables inp in
  let result := snd (run_page sch ascii_tables inp [] sample_db) in
  (validate_id ascii_tables (student_id s) = None ->
   hd_error (page result) = Some IdFormatError /\ stored result = sample_db) /\
  (validate_id ascii_tables (student_id s) <> None -> validate_email ascii_tables (email s) = None ->
   hd_error (page result) = Some InvalidEmailFormat /\ stored result = sample_db) /\
  (validate_id ascii_tables (student_id s) <> None ->
   validate_email ascii_tables (email s) <> None ->
   has_student sch sample_db (student_id s) = true ->
   hd_error (page result) = Some (ErrorShown DuplicateEntry) /\ stored result = sample_db) /\
  (validate_id ascii_tables (student_id s) <> None ->
   validate_email ascii_tables (email s) <> None ->
   has_student sch sample_db (student_id s) = false ->
   hd_error (page result) = Some (StudentAdded (name s)) /\
   stored result = with_student sample_db s).
Proof.
  cbv zeta.
  apply (add_student_reports (binary_schema OnDeleteCascade) ascii_tables
           (enrolling (py " s104 ") (py "carol jones") (py "Carol@X.org ")) sample_db);
    reflexivity.
Defined.

(** Carol is enrolled: id in upper case, name in title case, email in lower
    case. *)
Example carol_is_enrolled :
  let result :=
    snd (run_page (binary_schema OnDeleteCascade) ascii_tables
           (enrolling (py " s104 ") (py "carol jones") (py "Carol@X.org ")) [] sample_db) in
  hd_error (page result) = Some (StudentAdded (py "Carol Jones")) /\
  Students (stored result)
    = [alice; alice_too; bob;
       {| student_id := py "S104"; name := py "Carol Jones"; email := py "carol@x.org" |}].
Proof. cbv zeta. split; reflexivity. Qed.

(* ================================================================== *)
(** * Errors that are caught *)

(** X8. A [mysql.connector.Error] of the [INSERT] or of the commit never
    leaves Add New Student or Log Service Activity: the two statements stand
    in a [try] whose handler displays the error. No connector error leaves
    the first tab, whatever fails. One leaves the second tab only when it
    was raised by one of the two [pd.read_sql] at the top of the tab, which
    stand outside the [try]: the first request of the tab failed with it, or
    the first was answered and the second failed with it. *)
Theorem insert_errors_are_caught
    (sch : schema) (U : unicode) (inp : inputs) (w : world) (e : db_error) :
  fst (tab1 sch U inp w) <> Raised (MySQLError e) /\
  (fst (tab2 sch U inp w) = Raised (MySQLError e) ->
   nth 0 (faults w) Answered = ConnectorFails \/
   (nth 0 (faults w) Answered = Answered /\ nth 1 (faults w) Answered = ConnectorFails)).
Proof.
  split.
  - destruct (tab1 sch U inp w) as [o w'] eqn:E. cbn [fst].
    exact (tab1_no_connector_error sch U inp _ _ _ E e).
  - destruct (tab2 sch U inp w) as [o w'] eqn:E. cbn [fst]. intros ->.
    unfold tab2 in E. apply bind_inv in E.
    destruct E as [(st_df & w1 & E1 & E) | [(e1 & E1 & He1) | (_ & He1)]];
      [| |discriminate]; apply read_sql_fault in E1; destruct E1 as [Hf1 Ho1].
    2: { left. injection He1 as <-.
         destruct (nth 0 (faults w) Answered); [discriminate | reflexivity | discriminate]. }
    right. split; [destruct (nth 0 (faults w) Answered); [reflexivity | discriminate ..]|].
    apply bind_inv in E.
    destruct E as [(sv_df & w2 & E2 & E) | [(e2 & E2 & He2) | (_ & He2)]];
      [| |discriminate].
    + exfalso.
      exact (service_log_form_no_connector_error sch U inp st_df sv_df _ _ _ E e eq_refl).
    + apply read_sql_fault in E2. destruct E2 as [_ Ho2]. injection He2 as <-.
      assert (Hn : nth 1 (faults w) Answered = nth 0 (faults w1) Answered)
        by (rewrite Hf1; destruct (faults w) as [|f0 [|f1 fs]]; reflexivity).
      rewrite Hn.
      destruct (nth 0 (faults w1) Answered); [discriminate | reflexivity | discriminate].
Qed.

(** The commit of Carol's row fails: the error is displayed, the row is not
    stored, and the run goes on to the other tabs. When instead the first
    read of the next tab fails with the connector's error, the row is
    stored and the error leaves the run. *)
Example failed_commit_is_reported :
  let result :=
    run_page (binary_schema OnDeleteCascade) ascii_tables
      (enrolling (py " s104 ") (py "carol jones") (py "Carol@X.org "))
      [Answered; Answered; ConnectorFails] sample_db in
  let later :=
    run_page (binary_schema OnDeleteCascade) ascii_tables
      (enrolling (py " s104 ") (py "carol jones") (py "Carol@X.org "))
      [Answered; Answered; Answered; ConnectorFails] sample_db in
  fst result = Returned tt /\
  hd_error (page (snd result)) = Some (ErrorShown ServerGone) /\
  stored (snd result) = sample_db /\
  fst later = Raised (MySQLError ServerGone) /\
  page (snd later) = [StudentAdded (py "Carol Jones")] /\
  stored (snd later) = with_student sample_db
    {| student_id := py "S104"; name := py "Carol Jones"; email := py "carol@x.org" |}.
Proof. cbv zeta. repeat split; reflexivity. Qed.

(* ================================================================== *)
(** * Log Service Activity *)

Lemma resolve_service_has_service (sch : schema) (db : database) (pick : nat) (v_id : str) :
  resolve_service db pick = Some v_id -> has_service sch db v_id = true.
Proof.
  unfold resolve_service. cbv zeta. intros H. apply values0_in in H.
  destruct H as ([vid nm] & Hin & _ & Hc). cbn in Hc. subst vid.
  unfold select_services in Hin. apply in_map_iff in Hin.
  destruct Hin as (v & Hv & Hin). injection Hv as Hid _.
  unfold has_service. apply existsb_exists. exists v. split; [exact Hin|].
  rewrite Hid. apply sql_eqb_refl.
Qed.

(** Confirm Service Log, clicked, when no request fails and the two select
    boxes resolve to ids. *)
Lemma tab2_reports (sch : schema) (U : unicode) (inp : inputs) (w : world) (s_id v_id : str) :
  pressed inp ConfirmServiceLog = true ->
  faults w = [] ->
  resolve (session w) (pick_selected_st inp) = Some s_id ->
  resolve_service (session w) (pick_selected_sv inp) = Some v_id ->
  let l := new_log U inp s_id v_id in
  exists w1,
    tab2 sch U inp w = (Returned tt, w1) /\
    (has_log sch (session w) (student_service_id l) = true ->
     w1 = add_message (ErrorShown DuplicateEntry) w) /\
    (has_log sch (session w) (student_service_id l) = false ->
     w1 = {| stored := with_log (session w) l; session := with_log (session w) l;
             faults := [];
             page := page w ++
               [ServiceRegistered
                  (selectbox (map snd (select_services (session w))) (pick_selected_sv inp))
                  (selectbox (map snd (select_students (session w))) (pick_selected_st inp))] |}).
Proof.
  intros Hpress Hf Hs Hv. cbv zeta. destruct w as [sd ss fl pg]. cbn in Hf. subst fl.
  cbn [session page] in *.
  pose proof (resolve_has_student sch _ _ _ Hs) as Hhs.
  pose proof (resolve_service_has_service sch _ _ _ Hv) as Hhv.
  unfold resolve in Hs. unfold resolve_service in Hv. cbv zeta in Hs, Hv.
  unfold tab2. rewrite Hpress. unfold first_value. calm. rewrite Hs. calm. rewrite Hv.
  unfold try_except. calm. cbn [execute new_log student_service_id].
  destruct (has_log sch ss (upper U (strip U (log_id_text inp)))) eqn:Hl.
  - eexists. split; [reflexivity|]. split; intros; first [reflexivity | congruence].
  - rewrite Hhs, Hhv, !andb_false_r.
    eexists. split; [reflexivity|]. split; intros; first [reflexivity | congruence].
Qed.

(** X9. What Log Service stores and reports, when no request fails and a
    student and a service are selected. If a service record has the log id
    typed (stripped, in upper case), the database's duplicate-entry error is
    the first message and nothing is stored. Otherwise the success message
    is the first message and exactly one row is added to [StudentServices]:
    that log id, the id of the first student with the selected name, the id
    of the first service with the selected name, and the date picked. A
    foreign-key error cannot occur: both ids were read from the tables. *)
Theorem log_service_reports
    (sch : schema) (U : unicode) (inp : inputs) (db : database) (s_id v_id : str) :
  choice inp = RegistrationDesk ->
  clicked inp = ConfirmServiceLog ->
  resolve db (pick_selected_st inp) = Some s_id ->
  resolve_service db (pick_selected_sv inp) = Some v_id ->
  let l := new_log U inp s_id v_id in
  let result := snd (run_page sch U inp [] db) in
  (has_log sch db (student_service_id l) = true ->
   hd_error (page result) = Some (ErrorShown DuplicateEntry) /\ stored result = db) /\
  (has_log sch db (student_service_id l) = false ->
   hd_error (page result)
     = Some (ServiceRegistered
               (selectbox (map snd (select_services db)) (pick_selected_sv inp))
               (selectbox (map snd (select_students db)) (pick_selected_st inp))) /\
   stored result = with_log db l).
Proof.
  intros Hc Hb Hs Hv. cbv zeta.
  assert (Hp : forall b, pressed inp b = button_eqb ConfirmServiceLog b)
    by (intros b; unfold pressed; rewrite Hb; reflexivity).
  rewrite run_page_calm by (rewrite Hp; reflexivity).
  unfold page_body. rewrite Hc. unfold registration_desk.
  set (w0 := {| stored := db; session := db; faults := []; page := [] |}).
  assert (E1 : tab1 sch U inp w0 = (Returned tt, w0))
    by (unfold tab1; cbv zeta; rewrite Hp; reflexivity).
  destruct (tab2_reports sch U inp w0 s_id v_id ltac:(rewrite Hp; reflexivity) eq_refl Hs Hv)
    as (w1 & E2 & H1 & H2).
  cbv zeta in H1, H2.
  assert (Hg : grows (tab3 sch U inp ;; tab4 sch U inp)) by apply after_tab2_grows.
  assert (Hh : harmless (tab3 sch U inp ;; tab4 sch U inp)).
  { apply harmless_bind; [apply quiet_harmless, tab3_quiet; rewrite Hp; reflexivity|]. intros _.
    apply tab4_harmless; rewrite Hp; reflexivity. }
  assert (Hrun : ((tab1 sch U inp ;; tab2 sch U inp ;; tab3 sch U inp ;; tab4 sch U inp) ;;
                  conn_close) w0
                 = ((tab3 sch U inp ;; tab4 sch U inp) ;; conn_close) w1).
  { rewrite (bind_step _ _ _ _ _ _ E1). cbv beta.
    exact (bind_step (tab2 sch U inp) (fun _ => tab3 sch U inp ;; tab4 sch U inp)
             (fun _ => conn_close) w0 w1 tt E2). }
  rewrite Hrun.
  split; intros Hl.
  - rewrite (H1 Hl).
    apply (later_tabs_keep _ (add_message (ErrorShown DuplicateEntry) w0)
             (ErrorShown DuplicateEntry) [] Hg Hh eq_refl).
  - rewrite (H2 Hl).
    apply (later_tabs_keep _
             {| stored := with_log db (new_log U inp s_id v_id);
                session := with_log db (new_log U inp s_id v_id);
                faults := [];
                page := [ServiceRegistered
                           (selectbox (map snd (select_services db)) (pick_selected_sv inp))
                           (selectbox (map snd (select_students db)) (pick_selected_st inp))] |}
             _ [] Hg Hh eq_refl).
Qed.

Lemma log_service_reports_witness :
  let sch := binary_schema OnDeleteCascade in
  let inp := desk ConfirmServiceLog DropSpecificService (py " ss9 ") 1 in
  let l := new_log ascii_tables inp (py "S101") (py "V2") in
  let result := snd (run_page sch ascii_tables inp [] sample_db) in
  (has_log sch sample_db (student_service_id l) = true ->
   hd_error (page result) = Some (ErrorShown DuplicateEntry) /\ stored result = sample_db) /\
  (has_log sch sample_db (student_service_id l) = false ->
   hd_error (page result)
     = Some (ServiceRegistered
               (selectbox (map snd (select_services sample_db)) 1)
               (selectbox (map snd (select_students sample_db)) 1)) /\
   stored result = with_log sample_db l).
Proof.
  cbv zeta.
  apply (log_service_reports (binary_schema OnDeleteCascade) ascii_tables
           (desk ConfirmServiceLog DropSpecificService (py " ss9 ") 1) sample_db
           (py "S101") (py "V2"));
    reflexivity.
Defined.

(* ================================================================== *)
(** * Which student a tab works on: the change is committed *)

Lemma selectbox_in {A : Type} (l : list A) (pick : nat) (a : A) :
  selectbox l pick = Some a -> In a l.
Proof.
  unfold selectbox. destruct (nth_error l pick) as [x|] eqn:E.
  - intros H. injection H as <-. exact (nth_error_In l pick E).
  - destruct l as [|x l]; cbn; [discriminate|]. intros H. injection H as <-. left. reflexivity.
Qed.

Lemma find_exists {A : Type} (f : A -> bool) (l : list A) (x : A) :
  In x l -> f x = true -> exists y, find f l = Some y.
Proof.
  induction l as [|a l IH]; cbn; intros Hin Hf; [destruct Hin|].
  destruct (f a) eqn:Ha; [eauto|].
  destruct Hin as [-> | Hin]; [congruence | auto].
Qed.








(* ================================================================== *)
(** * Drop a Specific Service *)

Lemma values0_find {R V : Type} (df : list R) (f : R -> str) (column : R -> V) (lab : str) :
  values0 df (fun r => is_selected (Some lab) (f r)) column
  = option_map column (find (fun r => str_eqb (f r) lab) df).
Proof.
  unfold values0. induction df as [|r df IH]; [reflexivity|].
  cbn. destruct (str_eqb (f r) lab); [reflexivity | exact IH].
Qed.

Section DropService.

Variable sch : schema.
Variable U : unicode.
Variable inp : inputs.

(** A statement, its commit and what follows: either nothing is committed
    and the exception of the failed request is raised, or the statement is
    committed and the rest runs. *)
Lemma write_then (s : statement) (k : M unit) (w w' : world) (o : outcome unit) :
  (cursor_execute sch s ;; conn_commit ;; k) w = (o, w') ->
  (stored w' = stored w /\ exists e, write_error e /\ o = Raised e) \/
  exists w2, execute sch s (session w) = inr (stored w2) /\ k w2 = (o, w').
Proof.
  intros E. apply bind_inv in E.
  destruct E as [([] & w1 & E1 & E) | [(e & E1 & ->) | (E1 & ->)]];
    apply cursor_execute_spec in E1; destruct E1 as (Hs1 & Hp1 & Ho1).
  2: { left. split; [exact Hs1|]. destruct Ho1 as [[Ho1 _] | (e' & He' & Ho1 & _)]; [discriminate|].
       injection Ho1 as ->. eauto. }
  2: { destruct Ho1 as [[Ho1 _] | (e' & He' & Ho1 & _)]; discriminate. }
  destruct Ho1 as [[_ Hex] | (e' & He' & Ho1 & _)]; [|discriminate].
  apply bind_inv in E.
  destruct E as [([] & w2 & E2 & E) | [(e & E2 & ->) | (E2 & ->)]];
    apply conn_commit_spec in E2; destruct E2 as (Hn2 & Hp2 & Ho2).
  2: { left. destruct Ho2 as [[Ho2 _] | (e' & He' & Ho2 & Hs2)]; [discriminate|].
       split; [congruence|]. injection Ho2 as ->. eauto. }
  2: { destruct Ho2 as [[Ho2 _] | (e' & He' & Ho2 & _)]; discriminate. }
  destruct Ho2 as [[_ Hs2] | (e' & He' & Ho2 & _)]; [|discriminate].
  right. exists w2. split; [rewrite Hs2; exact Hex | exact E].
Qed.

(** Drop Selected Service, clicked: either nothing is committed, or the
    [DELETE] of the first listed record with the selected label is, and the
    run ends in [st.rerun()]. *)
Lemma tab4_drop_spec (w w' : world) (o : outcome unit) :
  remove_option inp = DropSpecificService ->
  pressed inp DropSelectedService = true ->
  session w = stored w ->
  tab4 sch U inp w = (o, w') ->
  stored w' = stored w \/
  exists q lab row,
    logs_query sch (selectbox (map snd (select_students (stored w))) (pick_student_name inp))
      = Some q /\
    selectbox (map label (q (stored w))) (pick_log_label inp) = Some lab /\
    find (fun r => str_eqb (label r) lab) (q (stored w)) = Some row /\
    stored w' = without_log sch (stored w) (lr_student_service_id row) /\
    o = Raised RerunException.
Proof.
  intros Hmode Hpress Hsess E. unfold tab4 in E.
  apply bind_inv in E.
  destruct E as [(st_list & w1 & E1 & E) | [(e & E1 & ->) | (E1 & ->)]];
    apply read_sql_spec in E1; destruct E1 as [(Hs1 & Hn1 & Hp1) Ho1]; auto.
  destruct Ho1 as [(? & _ & Ho1)|Ho1]; [discriminate|]. injection Ho1 as ->.
  rewrite Hmode in E. unfold bind at 1 in E. cbn [st] in E. cbv zeta in E.
  set (v1 := add_message DropHint w1) in E.
  assert (Hs1' : stored v1 = stored w) by exact Hs1.
  assert (Hn1' : session v1 = stored w) by (rewrite <- Hsess; exact Hn1).
  clearbody v1. clear Hs1 Hn1 Hp1 w1. rewrite Hsess in E.
  destruct (logs_query sch (selectbox (map snd (select_students (stored w)))
                              (pick_student_name inp))) as [q|] eqn:Hq.
  2: { unfold bind, read_sql in E. injection E as <- <-. left. exact Hs1'. }
  apply bind_inv in E.
  destruct E as [(logs_df & w2 & E2 & E) | [(e & E2 & ->) | (E2 & ->)]];
    apply read_sql_spec in E2; destruct E2 as [(Hs2 & Hn2 & Hp2) Ho2];
    try (left; congruence).
  destruct Ho2 as [(? & _ & Ho2)|Ho2]; [discriminate|]. injection Ho2 as ->. rewrite Hn1' in E.
  destruct (q (stored w)) as [|r0 rows] eqn:Hrows.
  { injection E as <- <-. left. cbn. congruence. }
  rewrite Hpress in E.
  assert (Hsel : exists lab, selectbox (map label (r0 :: rows)) (pick_log_label inp) = Some lab).
  { unfold selectbox. destruct (nth_error _ _) as [a|]; [eauto|]. cbn. eauto. }
  destruct Hsel as [lab Hlab]. rewrite Hlab in E.
  apply bind_inv in E.
  destruct E as [(log_id & w3 & E3 & E) | [(e & E3 & ->) | (E3 & ->)]];
    unfold first_value in E3; rewrite values0_find in E3;
    destruct (find (fun r => str_eqb (label r) lab) (r0 :: rows)) as [row|] eqn:Hfind;
    cbn [option_map] in E3; try discriminate; injection E3 as ? ?; subst;
    try (left; congruence).
  apply write_then in E. destruct E as [[Hs _] | (w4 & Hex & E)]; [left; congruence|].
  unfold bind, st, st_rerun, raise in E. injection E as <- <-.
  right. exists q, lab, row. rewrite Hrows.
  repeat split; auto. cbn [stored add_message].
  rewrite Hn2, Hn1' in Hex. cbn [execute] in Hex. injection Hex as <-. reflexivity.
Qed.

(** Drop Selected Service, clicked, when no request fails and the list of
    the selected student is not empty: the record is removed and the run
    ends in [st.rerun()]. *)
Lemma drop_service_completes (db : database) (q : database -> list LogRow) :
  choice inp = RegistrationDesk ->
  remove_option inp = DropSpecificService ->
  clicked inp = DropSelectedService ->
  logs_query sch (selectbox (map snd (select_students db)) (pick_student_name inp)) = Some q ->
  q db <> [] ->
  exists lab row,
    selectbox (map label (q db)) (pick_log_label inp) = Some lab /\
    find (fun r => str_eqb (label r) lab) (q db) = Some row /\
    fst (run_page sch U inp [] db) = Raised RerunException /\
    stored (snd (run_page sch U inp [] db)) = without_log sch db (lr_student_service_id row).
Proof.
  intros Hc Hm Hb Hq Hrows.
  destruct (q db) as [|r0 rows] eqn:Hlist; [congruence|]. clear Hrows.
  assert (Hsel : exists lab, selectbox (map label (r0 :: rows)) (pick_log_label inp) = Some lab).
  { unfold selectbox. destruct (nth_error _ _) as [a|]; [eauto|]. cbn. eauto. }
  destruct Hsel as [lab Hlab].
  assert (Hfind : exists row, find (fun r => str_eqb (label r) lab) (r0 :: rows) = Some row).
  { pose proof (selectbox_in _ _ _ Hlab) as Hin. apply in_map_iff in Hin.
    destruct Hin as (r & Hr & Hin).
    apply (find_exists _ _ r Hin). rewrite Hr. apply str_eqb_refl. }
  destruct Hfind as [row Hrow].
  exists lab, row. split; [exact Hlab|]. split; [exact Hrow|].
  unfold run_page, main, registration_desk, tab1, tab2, tab3, tab4, pressed.
  rewrite Hc, Hm, Hb. unfold first_value. calm. rewrite Hq. calm. rewrite Hlist, Hlab.
  rewrite values0_find, Hrow. calm. cbn [execute]. split; reflexivity.
Qed.

End DropService.

(** X10. Drop a Service removes the listed record and nothing else. The
    selected student name is taken to hold no quote and no backslash, so
    that the query built from it is the one the script wrote. Whatever
    requests fail, after a click on Drop Selected Service the tables are as
    they were, or are the tables without the rows of [StudentServices] that
    have one record's id: the first record, in the list shown for the
    selected student name, whose label (service name and date) is the label
    picked. [Students], [Services] and the records with other ids are
    unchanged. When no request fails and the list is not empty, that record
    is removed and the run ends in [st.rerun()]. *)
Theorem drop_service_removes_selected_record
    (sch : schema) (U : unicode) (inp : inputs) (fs : list fault) (db : database) :
  choice inp = RegistrationDesk ->
  remove_option inp = DropSpecificService ->
  clicked inp = DropSelectedService ->
  selected_name_quotable db inp = true ->
  let result := run_page sch U inp fs db in
  let after := stored (snd result) in
  let student_name := selectbox (map snd (select_students db)) (pick_student_name inp) in
  fst result <> Unmodelled /\
  (after = db \/
   exists q lab row,
     logs_query sch student_name = Some q /\
     selectbox (map label (q db)) (pick_log_label inp) = Some lab /\
     find (fun r => str_eqb (label r) lab) (q db) = Some row /\
     after = without_log sch db (lr_student_service_id row)) /\
  (exists q,
     logs_query sch student_name = Some q /\
     (q db <> [] ->
      exists lab row,
        selectbox (map label (q db)) (pick_log_label inp) = Some lab /\
        find (fun r => str_eqb (label r) lab) (q db) = Some row /\
        fst (run_page sch U inp [] db) = Raised RerunException /\
        stored (snd (run_page sch U inp [] db))
          = without_log sch db (lr_student_service_id row))).
Proof.
  intros Hc Hm Hb Hq. cbv zeta.
  assert (Hp : forall b, pressed inp b = button_eqb DropSelectedService b)
    by (intros b; unfold pressed; rewrite Hb; reflexivity).
  split.
  { apply desk_run_modelled; try exact Hc; try (rewrite Hp; reflexivity).
    intros _. exact Hq. }
  split.
  2: { destruct (logs_query sch (selectbox (map snd (select_students db))
                                   (pick_student_name inp))) as [q|] eqn:Hlq.
       - exists q. split; [reflexivity|]. intros Hrows.
         exact (drop_service_completes sch U inp db q Hc Hm Hb Hlq Hrows).
       - unfold logs_query in Hlq. unfold selected_name_quotable in Hq.
         rewrite (quoted_some _ Hq) in Hlq. discriminate. }
  destruct (run_page sch U inp fs db) as [o w'] eqn:E. cbn [snd].
  apply run_page_desk in E; [| rewrite Hp; reflexivity | exact Hc].
  destruct E as [(_ & Hs & _) | (w0 & w1 & Hs0 & Hn0 & Hp0 & E & Hs1 & Hp1)]; [auto|].
  apply desk_reaches_tab4 in E; try (rewrite Hp; reflexivity).
  destruct E as [[(Hs & _ & _) _] | (w2 & (Hs2 & Hn2 & _) & E)]; [left; congruence|].
  apply tab4_drop_spec in E; [| exact Hm | rewrite Hp; reflexivity | congruence].
  rewrite Hs2, Hs0, <- Hs1 in E.
  destruct E as [Hsame | (q & lab & row & Hq' & Hlab & Hfind & Hafter & _)]; [left; exact Hsame|].
  right. exists q, lab, row. auto.
Qed.

Lemma drop_service_removes_selected_record_witness :
  let sch := binary_schema OnDeleteCascade in
  let inp := desk DropSelectedService DropSpecificService [] 1 in
  let result := run_page sch ascii_tables inp [] sample_db in
  let after := stored (snd result) in
  let student_name := selectbox (map snd (select_students sample_db)) 1 in
  fst result <> Unmodelled /\
  (after = sample_db \/
   exists q lab row,
     logs_query sch student_name = Some q /\
     selectbox (map label (q sample_db)) 1 = Some lab /\
     find (fun r => str_eqb (label r) lab) (q sample_db) = Some row /\
     after = without_log sch sample_db (lr_student_service_id row)) /\
  (exists q,
     logs_query sch student_name = Some q /\
     (q sample_db <> [] ->
      exists lab row,
        selectbox (map label (q sample_db)) 1 = Some lab /\
        find (fun r => str_eqb (label r) lab) (q sample_db) = Some row /\
        fst result = Raised RerunException /\
        after = without_log sch sample_db (lr_student_service_id row))).
Proof.
  cbv zeta.
  apply (drop_service_removes_selected_record (binary_schema OnDeleteCascade) ascii_tables
           (desk DropSelectedService DropSpecificService [] 1) [] sample_db);
    reflexivity.
Defined.

(** The second record listed for Alice, "Library (2024-03-05)", is dropped;
    her other record and Bob's stay. *)
Example drop_library_of_alice :
  let result :=
    run_page (binary_schema OnDeleteCascade) ascii_tables
      (desk DropSelectedService DropSpecificService [] 1) [] sample_db in
  fst result = Raised RerunException /\
  page (snd result)
    = [DropHint; ServiceRemoved (Some (py "Library (2024-03-05)")) (Some (py "Alice"))] /\
  map student_service_id (StudentServices (stored (snd result))) = [py "SS1"; py "SS3"] /\
  Students (stored (snd result)) = Students sample_db.
Proof. cbv zeta. repeat split; reflexivity. Qed.

(* ================================================================== *)
(** * Search with wildcards *)

Section SearchWildcards.

Variable sch : schema.

Lemma like_percent_cons (p s : str) :
  like sch (ch "%" :: p) s
  = like sch p s || match s with [] => false | _ :: s' => like sch (ch "%" :: p) s' end.
Proof. destruct s; reflexivity. Qed.

(** A text that starts with the search text matches the pattern, whatever
    wildcards the search text holds: wildcards only add matches. *)
Lemma like_covers_prefix (p s : str) :
  sql_startswith sch s p = true -> like sch (p ++ [ch "%"]) s = true.
Proof.
  revert s. induction p as [|c p IH]; intros s H.
  - apply like_percent.
  - destruct s as [|x s]; [discriminate|].
    cbn [sql_startswith] in H. apply andb_true_iff in H. destruct H as [Hx Hs].
    specialize (IH s Hs).
    destruct (N.eqb c (ch "%")) eqn:Hc.
    + apply N.eqb_eq in Hc. subst c. cbn [app].
      rewrite like_percent_cons. apply orb_true_iff. right.
      rewrite like_percent_cons. rewrite IH. reflexivity.
    + cbn [app like]. rewrite Hc, Hx, orb_true_r, IH. reflexivity.
Qed.

Lemma quoted_quotable (p : str) :
  quotable p = true -> quoted (p ++ py "%") = Some (p ++ py "%").
Proof.
  unfold quotable, quoted. intros H. apply negb_true_iff in H.
  rewrite existsb_app, H. reflexivity.
Qed.

End SearchWildcards.

(** X11. Search & Manage with any search text that is not empty and holds
    no quote or backslash, when no request fails: the rows displayed are
    rows of the tracker view, in ascending order of [Student], and no row
    of the view whose [Student] starts with the search text (as the
    collation compares characters) is missing, whatever [%] or [_] the
    text holds. *)
Theorem search_never_misses_a_prefix_match
    (sch : schema) (U : unicode) (inp : inputs) (db : database) :
  choice inp = SearchManage ->
  clicked inp <> RefreshSystem ->
  search_text inp <> [] ->
  quotable (search_text inp) = true ->
  let view := vw_StudentServiceTracker sch db in
  exists rows,
    run_page sch U inp [] db =
      (Returned tt, {| stored := db; session := db; faults := [];
                       page := [SearchHint; SearchResults rows] |}) /\
    (forall r, In r rows -> In r view) /\
    (forall r, In r view -> sql_startswith sch (Student r) (search_text inp) = true ->
               In r rows) /\
    StronglySorted (fun r1 r2 => sql_leb sch (Student r1) (Student r2) = true) rows.
Proof.
  intros Hc Hb Hne Hq. cbv zeta.
  assert (Hr : pressed inp RefreshSystem = false)
    by (unfold pressed; destruct (clicked inp); try reflexivity; congruence).
  set (rows := sort_by (fun r1 r2 => sql_leb sch (Student r1) (Student r2))
                 (filter (fun r => like sch (search_text inp ++ py "%") (Student r))
                         (vw_StudentServiceTracker sch db))).
  assert (Hquery : search_query sch (search_text inp)
                   = Some (fun db =>
                       sort_by (fun r1 r2 => sql_leb sch (Student r1) (Student r2))
                         (filter (fun r => like sch (search_text inp ++ py "%") (Student r))
                                 (vw_StudentServiceTracker sch db)))).
  { unfold search_query. destruct (search_text inp) as [|c p] eqn:Ht; [congruence|].
    rewrite (quoted_quotable (c :: p) Hq). reflexivity. }
  assert (Hperm : Permutation rows
                    (filter (fun r => like sch (search_text inp ++ py "%") (Student r))
                            (vw_StudentServiceTracker sch db)))
    by apply sort_by_perm.
  exists rows. split; [|split; [|split]].
  - unfold run_page, main, search_and_manage. rewrite Hr, Hc. cbv zeta. rewrite Hquery.
    calm. reflexivity.
  - intros r Hin. apply (Permutation_in _ Hperm) in Hin.
    apply filter_In in Hin. tauto.
  - intros r Hin Hpre. apply (Permutation_in _ (Permutation_sym Hperm)).
    apply filter_In. split; [exact Hin|].
    apply (like_covers_prefix sch (search_text inp) (Student r) Hpre).
  - apply sort_by_sorted.
    + intros r1 r2. apply sql_leb_total.
    + intros r1 r2 r3. apply sql_leb_trans.
Qed.

Lemma search_never_misses_a_prefix_match_witness :
  let sch := binary_schema OnDeleteCascade in
  let view := tracker_join sample_db in
  exists rows,
    run_page sch ascii_tables (searching (py "Al_c")) [] sample_db =
      (Returned tt, {| stored := sample_db; session := sample_db; faults := [];
                       page := [SearchHint; SearchResults rows] |}) /\
    (forall r, In r rows -> In r view) /\
    (forall r, In r view -> sql_startswith sch (Student r) (py "Al_c") = true -> In r rows) /\
    StronglySorted (fun r1 r2 => sql_leb sch (Student r1) (Student r2) = true) rows.
Proof.
  cbv zeta.
  apply (search_never_misses_a_prefix_match (binary_schema OnDeleteCascade) ascii_tables
           (searching (py "Al_c")) sample_db); try reflexivity; discriminate.
Defined.

(** The search for ["Al_c"] finds Alice, whose name does not start with
    it. *)
Example search_with_underscore :
  page (snd (run_page (binary_schema OnDeleteCascade) ascii_tables (searching (py "Al_c")) []
                      sample_db))
  = [SearchHint;
     SearchResults
       [ {| Student := py "Alice"; Service := py "Tutoring"; Date_Used := march 1;
            other_columns := [] |};
         {| Student := py "Alice"; Service := py "Library"; Date_Used := march 5;
            other_columns := [] |} ]].
Proof. reflexivity. Qed.

(* ================================================================== *)
(** * The validators on texts without a final newline *)

(** X12. On every text that does not end in a newline the validators
    accept exactly the shapes the patterns describe: [validate_id] is true
    if and only if the text is S followed by one or more digits, and
    [validate_email] if and only if it is local@domain.tld. *)
Theorem validators_exact_without_final_newline (U : unicode) (s : str) :
  last s 0%N <> LF ->
  (validate_id U s <> None <-> spec_identifier U s) /\
  (validate_email U s <> None <-> spec_email U s).
Proof.
  intros Hlast.
  assert (Hno : forall shape, with_optional_newline shape s <-> shape s).
  { intros shape. split; [|intros H; left; exact H].
    intros [H | (t & E & _)]; [exact H|].
    exfalso. apply Hlast. rewrite E. apply last_last. }
  split.
  - rewrite validate_id_matches. apply Hno.
  - rewrite validate_email_matches. apply Hno.
Qed.

Lemma validators_exact_without_final_newline_witness :
  (validate_id ascii_tables (py "S101") <> None <-> spec_identifier ascii_tables (py "S101")) /\
  (validate_email ascii_tables (py "S101") <> None <-> spec_email ascii_tables (py "S101")).
Proof.
  apply (validators_exact_without_final_newline ascii_tables (py "S101")).
  discriminate.
Defined.
